(** * a_kvnl: annotated key/value lines

    A shallow embedding of [a_kvnl.py], the typed value codec that sits on
    top of the kvnl line transport, together with the properties of its
    decode and encode pipelines.

    Python values are modelled by the inductive type [pyval]; a Python
    [str] is a list of code points and a [bytes] object a list of bytes.
    A function that may raise returns a [result]; a generator is modelled
    by the record of everything it yields when driven to its end, how it
    ends, and what it leaves in the iterator it reads. *)

From Stdlib Require Import List ZArith NArith Bool Lia.
From Stdlib Require Import Sorting.Permutation.
From Stdlib Require Import Strings.String Strings.Ascii Strings.Byte.
From Stdlib Require Import Floats.PrimFloat Floats.SpecFloat Floats.FloatOps.
From Stdlib Require Decimal DecimalZ.
Import ListNotations.

Set Warnings "-register-all".

(** ** Python data *)

(** A [str]: the sequence of its code points. *)
Definition pystr := list N.

(** A [bytes] object. *)
Definition bytes := list byte.

(** The [str] and [bytes] literals of the source. *)
Definition bytes_of (s : string) : bytes := list_byte_of_string s.
Definition str_of (s : string) : pystr := map Byte.to_N (list_byte_of_string s).

Fixpoint str_eqb (a b : pystr) : bool :=
  match a, b with
  | [], [] => true
  | x :: a', y :: b' => N.eqb x y && str_eqb a' b'
  | _, _ => false
  end.

(** [datetime.datetime]: the civil fields and the UTC offset of its
    [tzinfo] in microseconds ([None] for a naive timestamp). *)
Record datetime := mkDatetime {
  year : N; month : N; day : N;
  hour : N; minute : N; second : N; microsecond : N;
  utcoffset : option Z
}.

(** The values the codec handles: those of the types its tables mention,
    [None], [bytes] and tuples. A float is an IEEE 754 binary64 number. *)
Inductive pyval :=
| VNone
| VInt (z : Z)
| VFloat (x : float)
| VStr (s : pystr)
| VBytes (b : bytes)
| VTime (t : datetime)
| VTuple (items : list pyval).

(** The classes of those values, as the keys of [TYPES]. *)
Inductive pytype := TNoneType | TInt | TFloat | TStr | TBytes | TDatetime | TTuple.

Definition type_of (v : pyval) : pytype :=
  match v with
  | VNone => TNoneType
  | VInt _ => TInt
  | VFloat _ => TFloat
  | VStr _ => TStr
  | VBytes _ => TBytes
  | VTime _ => TDatetime
  | VTuple _ => TTuple
  end.

Definition pytype_eqb (a b : pytype) : bool :=
  match a, b with
  | TNoneType, TNoneType | TInt, TInt | TFloat, TFloat | TStr, TStr
  | TBytes, TBytes | TDatetime, TDatetime | TTuple, TTuple => true
  | _, _ => false
  end.

Definition isinstance (v : pyval) (t : pytype) : bool := pytype_eqb (type_of v) t.

(** ** Exceptions *)

Inductive exn :=
| EOFError
| DecodingError (msg : pystr)
| EncodingError (value annotation : pyval)
| ValueError
| TypeError
| AttributeError
| OverflowError
| UnicodeDecodeError
| UnicodeEncodeError.

Inductive result (A : Type) :=
| Ok (a : A)
| Err (e : exn).
Arguments Ok {A} a.
Arguments Err {A} e.

Definition bind {A B} (r : result A) (k : A -> result B) : result B :=
  match r with
  | Ok a => k a
  | Err e => Err e
  end.

Notation "x <- e ;; k" := (bind e (fun x => k))
  (at level 61, e at next level, right associativity).
Notation "' p <- e ;; k" := (bind e (fun x => match x with p => k end))
  (at level 61, p pattern, e at next level, right associativity).

(** ** Line records

    What the transport hands to the decoder and takes from the encoder:
    [None] (no data yet), the blank line ['\n'] that ends a block, or a
    [(key, value)] pair. *)
Inductive line :=
| Pending
| Blank
| KeyValue (key : pystr) (value : pyval).

(** ** Generators

    The stream that [decode_line] reads is an iterator, "a generator
    compatible with kvnl.load_line()": the list of the lines it has yet to
    produce. A run of a generator is the items it yields when driven to
    its end, how it ends, and the state in which it leaves the iterator it
    consumes. *)
Inductive ending :=
| Returned
| Raised (e : exn).

Record run := mkRun {
  yielded : list line;
  ended : ending;
  remaining : list line
}.

Definition emit (x : line) (r : run) : run :=
  mkRun (x :: yielded r) (ended r) (remaining r).

Definition emits (xs : list line) (r : run) : run :=
  mkRun (xs ++ yielded r) (ended r) (remaining r).

(** [yield x; return] and [raise e], with the iterator left at [s]. *)
Definition yield_return (x : line) (s : list line) : run := mkRun [x] Returned s.
Definition raise (e : exn) (s : list line) : run := mkRun [] (Raised e) s.

(** ** Text conversions of the Python library

    The converters of [DECODERS] and [ENCODERS] are compositions of
    library calls: [str.encode], [bytes.decode], [int], [str],
    [datetime.isoformat] and [datetime.fromisoformat]. *)

Open Scope N_scope.

Definition byte_of (n : N) : byte :=
  match Byte.of_N n with
  | Some b => b
  | None => x00
  end.

(** *** [str.encode('utf-8')] and [bytes.decode('utf-8')] *)

(** A code point that has a UTF-8 encoding: below [0x110000] and no
    surrogate. *)
Definition scalar_value (c : N) : bool :=
  (c <? 0x110000) && negb ((0xD800 <=? c) && (c <=? 0xDFFF)).

Definition utf8_encode_char (c : N) : result bytes :=
  if c <? 0x80 then Ok [byte_of c]
  else if c <? 0x800 then
    Ok [byte_of (0xC0 + c / 64); byte_of (0x80 + c mod 64)]
  else if c <? 0x10000 then
    if (0xD800 <=? c) && (c <=? 0xDFFF) then Err UnicodeEncodeError
    else Ok [byte_of (0xE0 + c / 4096);
             byte_of (0x80 + (c / 64) mod 64);
             byte_of (0x80 + c mod 64)]
  else if c <? 0x110000 then
    Ok [byte_of (0xF0 + c / 262144);
        byte_of (0x80 + (c / 4096) mod 64);
        byte_of (0x80 + (c / 64) mod 64);
        byte_of (0x80 + c mod 64)]
  else Err UnicodeEncodeError.

Fixpoint utf8_encode (s : pystr) : result bytes :=
  match s with
  | [] => Ok []
  | c :: s' =>
      b <- utf8_encode_char c ;;
      r <- utf8_encode s' ;;
      Ok (b ++ r)
  end.

Definition continuation (n : N) : bool := (0x80 <=? n) && (n <? 0xC0).

(** The strict decoder: overlong forms, surrogates and code points above
    [0x10FFFF] are errors. *)
Fixpoint utf8_decode (b : bytes) : result pystr :=
  match b with
  | [] => Ok []
  | b0 :: r0 =>
      let n0 := Byte.to_N b0 in
      if n0 <? 0x80 then s <- utf8_decode r0 ;; Ok (n0 :: s)
      else if n0 <? 0xC0 then Err UnicodeDecodeError
      else
        match r0 with
        | [] => Err UnicodeDecodeError
        | b1 :: r1 =>
            let n1 := Byte.to_N b1 in
            if negb (continuation n1) then Err UnicodeDecodeError
            else if n0 <? 0xE0 then
              let c := (n0 - 0xC0) * 64 + (n1 - 0x80) in
              if c <? 0x80 then Err UnicodeDecodeError
              else s <- utf8_decode r1 ;; Ok (c :: s)
            else
              match r1 with
              | [] => Err UnicodeDecodeError
              | b2 :: r2 =>
                  let n2 := Byte.to_N b2 in
                  if negb (continuation n2) then Err UnicodeDecodeError
                  else if n0 <? 0xF0 then
                    let c := (n0 - 0xE0) * 4096 + (n1 - 0x80) * 64 + (n2 - 0x80) in
                    if (c <? 0x800) || ((0xD800 <=? c) && (c <=? 0xDFFF))
                    then Err UnicodeDecodeError
                    else s <- utf8_decode r2 ;; Ok (c :: s)
                  else
                    match r2 with
                    | [] => Err UnicodeDecodeError
                    | b3 :: r3 =>
                        let n3 := Byte.to_N b3 in
                        if negb (continuation n3) then Err UnicodeDecodeError
                        else if n0 <? 0xF8 then
                          let c := (n0 - 0xF0) * 262144 + (n1 - 0x80) * 4096
                                   + (n2 - 0x80) * 64 + (n3 - 0x80) in
                          if (c <? 0x10000) || (0x10FFFF <? c)
                          then Err UnicodeDecodeError
                          else s <- utf8_decode r3 ;; Ok (c :: s)
                        else Err UnicodeDecodeError
                    end
              end
        end
  end.

(** *** [str.encode('ascii')] and [bytes.decode('ascii')] *)

Fixpoint ascii_encode (s : pystr) : result bytes :=
  match s with
  | [] => Ok []
  | c :: s' =>
      if c <? 0x80 then r <- ascii_encode s' ;; Ok (byte_of c :: r)
      else Err UnicodeEncodeError
  end.

Fixpoint ascii_decode (b : bytes) : result pystr :=
  match b with
  | [] => Ok []
  | b0 :: b' =>
      if Byte.to_N b0 <? 0x80 then s <- ascii_decode b' ;; Ok (Byte.to_N b0 :: s)
      else Err UnicodeDecodeError
  end.

(** *** [str(n)] and [int(text)] for integers *)

Fixpoint digits_of_uint (u : Decimal.uint) : pystr :=
  match u with
  | Decimal.Nil => []
  | Decimal.D0 u => 48 :: digits_of_uint u
  | Decimal.D1 u => 49 :: digits_of_uint u
  | Decimal.D2 u => 50 :: digits_of_uint u
  | Decimal.D3 u => 51 :: digits_of_uint u
  | Decimal.D4 u => 52 :: digits_of_uint u
  | Decimal.D5 u => 53 :: digits_of_uint u
  | Decimal.D6 u => 54 :: digits_of_uint u
  | Decimal.D7 u => 55 :: digits_of_uint u
  | Decimal.D8 u => 56 :: digits_of_uint u
  | Decimal.D9 u => 57 :: digits_of_uint u
  end.

(** [str(n)]: the decimal digits, after a minus sign when negative. *)
Definition str_of_int (z : Z) : pystr :=
  match Z.to_int z with
  | Decimal.Pos u => digits_of_uint u
  | Decimal.Neg u => 45 :: digits_of_uint u
  end.

Definition digit_of (c : N) : option (Decimal.uint -> Decimal.uint) :=
  match c with
  | 48 => Some Decimal.D0 | 49 => Some Decimal.D1 | 50 => Some Decimal.D2 | 51 => Some Decimal.D3
  | 52 => Some Decimal.D4 | 53 => Some Decimal.D5 | 54 => Some Decimal.D6 | 55 => Some Decimal.D7
  | 56 => Some Decimal.D8 | 57 => Some Decimal.D9
  | _ => None
  end.

(** Digits, with single underscores allowed between two digits. *)
Fixpoint parse_digits (after_digit : bool) (s : pystr) : option Decimal.uint :=
  match s with
  | [] => if after_digit then Some Decimal.Nil else None
  | c :: s' =>
      match digit_of c with
      | Some d => option_map d (parse_digits true s')
      | None =>
          if (c =? 95) && after_digit then parse_digits false s' else None
      end
  end.

Definition is_space (c : N) : bool := (c =? 32) || ((9 <=? c) && (c <=? 13)).

Fixpoint lstrip (s : pystr) : pystr :=
  match s with
  | [] => []
  | c :: s' => if is_space c then lstrip s' else s
  end.

Definition strip (s : pystr) : pystr := List.rev (lstrip (List.rev (lstrip s))).

(** [int(text)] in base 10: surrounding white space, an optional sign,
    then the digits. *)
Definition int_of_text (s : pystr) : result Z :=
  let s := strip s in
  let '(negative, body) :=
    match s with
    | 45 :: body => (true, body)
    | 43 :: body => (false, body)
    | _ => (false, s)
    end in
  match parse_digits false body with
  | Some u => Ok (Z.of_int (if negative then Decimal.Neg u else Decimal.Pos u))
  | None => Err ValueError
  end.

Definition int_of_bytes (b : bytes) : result Z := int_of_text (map Byte.to_N b).

(** *** [datetime.isoformat()] and [datetime.fromisoformat(text)] *)

Definition is_leap (y : N) : bool :=
  (y mod 4 =? 0) && (negb (y mod 100 =? 0) || (y mod 400 =? 0)).

Definition days_in_month (y m : N) : N :=
  match m with
  | 2 => if is_leap y then 29 else 28
  | 4 | 6 | 9 | 11 => 30
  | _ => 31
  end.

Definition day_us : Z := 86400000000%Z.

(** The invariant of a [datetime] object, which its constructor and the
    constructor of [timezone] enforce. *)
Definition valid_datetime (d : datetime) : bool :=
  (1 <=? year d) && (year d <=? 9999)
  && (1 <=? month d) && (month d <=? 12)
  && (1 <=? day d) && (day d <=? days_in_month (year d) (month d))
  && (hour d <? 24) && (minute d <? 60) && (second d <? 60)
  && (microsecond d <? 1000000)
  && match utcoffset d with
     | None => true
     | Some off => ((- day_us <? off) && (off <? day_us))%Z
     end.

Definition datetime_new (y m d hh mm ss us : N) (tz : option Z) : result datetime :=
  let t := mkDatetime y m d hh mm ss us tz in
  if valid_datetime t then Ok t else Err ValueError.

(** [n] written with [w] digits, as ["%0wd"] writes a number below
    [10^w]. *)
Fixpoint fixed_digits (w : nat) (n : N) : pystr :=
  match w with
  | O => []
  | S w' => (48 + (n / 10 ^ N.of_nat w') mod 10) :: fixed_digits w' n
  end.

Definition is_digit (c : N) : bool := (48 <=? c) && (c <=? 57).

Definition is_digit_char (c : N) : Prop := 48 <= c <= 57.

(** Reads [w] digits off the front of [s]. *)
Fixpoint take_number (w : nat) (acc : N) (s : pystr) : result (N * pystr) :=
  match w with
  | O => Ok (acc, s)
  | S w' =>
      match s with
      | c :: s' =>
          if is_digit c then take_number w' (10 * acc + (c - 48)) s'
          else Err ValueError
      | [] => Err ValueError
      end
  end.

Definition expect (c : N) (s : pystr) : result pystr :=
  match s with
  | c' :: s' => if c' =? c then Ok s' else Err ValueError
  | [] => Err ValueError
  end.

Definition format_offset (tz : option Z) : pystr :=
  match tz with
  | None => []
  | Some off =>
      let a := Z.to_N (Z.abs off) in
      let hh := a / 3600000000 in
      let mm := (a mod 3600000000) / 60000000 in
      let rest := (a mod 3600000000) mod 60000000 in
      (if (off <? 0)%Z then 45 else 43)
        :: fixed_digits 2 hh ++ 58 :: fixed_digits 2 mm
        ++ (if rest =? 0 then []
            else 58 :: fixed_digits 2 (rest / 1000000)
                 ++ (if rest mod 1000000 =? 0 then []
                     else 46 :: fixed_digits 6 (rest mod 1000000)))
  end.

(** [d.isoformat()]: [YYYY-MM-DDTHH:MM:SS], the microseconds when they
    are not zero, and the UTC offset of an aware timestamp. *)
Definition isoformat (d : datetime) : pystr :=
  fixed_digits 4 (year d) ++ 45 :: fixed_digits 2 (month d)
    ++ 45 :: fixed_digits 2 (day d)
    ++ 84 :: fixed_digits 2 (hour d) ++ 58 :: fixed_digits 2 (minute d)
    ++ 58 :: fixed_digits 2 (second d)
    ++ (if microsecond d =? 0 then [] else 46 :: fixed_digits 6 (microsecond d))
    ++ format_offset (utcoffset d).

(** [HH[:MM[:SS[.fff[fff]]]]]: the four fields and what follows them. *)
Definition parse_hh_mm_ss_ff (s : pystr) : result (N * N * N * N * pystr) :=
  '(hh, s1) <- take_number 2 0 s ;;
  match s1 with
  | 58 :: s1' =>
      '(mm, s2) <- take_number 2 0 s1' ;;
      match s2 with
      | 58 :: s2' =>
          '(ss, s3) <- take_number 2 0 s2' ;;
          match s3 with
          | 46 :: s3' =>
              match take_number 6 0 s3' with
              | Ok (us, s4) => Ok (hh, mm, ss, us, s4)
              | Err _ =>
                  '(ms, s4) <- take_number 3 0 s3' ;;
                  Ok (hh, mm, ss, ms * 1000, s4)
              end
          | _ => Ok (hh, mm, ss, 0, s3)
          end
      | _ => Ok (hh, mm, 0, 0, s2)
      end
  | _ => Ok (hh, 0, 0, 0, s1)
  end.

(** The offset after the sign: [HH:MM], [HH:MM:SS] or
    [HH:MM:SS.ffffff], in microseconds. *)
Definition parse_offset (s : pystr) : result N :=
  let n := List.length s in
  if Nat.eqb n 5 || Nat.eqb n 8 || Nat.eqb n 15 then
    '(hh, mm, ss, us, rest) <- parse_hh_mm_ss_ff s ;;
    match rest with
    | [] => Ok (((hh * 60 + mm) * 60 + ss) * 1000000 + us)
    | _ => Err ValueError
    end
  else Err ValueError.

Definition parse_isoformat_time (s : pystr) : result (N * N * N * N * option Z) :=
  '(hh, mm, ss, us, rest) <- parse_hh_mm_ss_ff s ;;
  match rest with
  | [] => Ok (hh, mm, ss, us, None)
  | sign :: tz =>
      if sign =? 45 then off <- parse_offset tz ;; Ok (hh, mm, ss, us, Some (- Z.of_N off)%Z)
      else if sign =? 43 then off <- parse_offset tz ;; Ok (hh, mm, ss, us, Some (Z.of_N off))
      else Err ValueError
  end.

(** [datetime.fromisoformat(s)] on the format that [isoformat] writes:
    [YYYY-MM-DD[*HH[:MM[:SS[.fff[fff]]]][+HH:MM[:SS[.ffffff]]]]]. *)
Definition fromisoformat (s : pystr) : result datetime :=
  '(y, s) <- take_number 4 0 s ;;
  s <- expect 45 s ;;
  '(m, s) <- take_number 2 0 s ;;
  s <- expect 45 s ;;
  '(d, s) <- take_number 2 0 s ;;
  '(hh, mm, ss, us, tz) <-
    match s with
    | [] | [_] => Ok (0, 0, 0, 0, None)
    | _ :: t => parse_isoformat_time t
    end ;;
  datetime_new y m d hh mm ss us tz.

Close Scope N_scope.

(** ** Conversion tables *)

(** A conversion table: synonym sets with their conversion, in insertion
    order. *)
Definition table := list (list pystr * (pyval -> result pyval)).

(** [annotation in annotations], for a tuple of strings. *)
Definition member (annotation : pyval) (annotations : list pystr) : bool :=
  match annotation with
  | VStr a => existsb (str_eqb a) annotations
  | _ => false
  end.

(** The conversion of the first entry, in table order, whose synonym set
    holds the annotation. *)
Fixpoint lookup (annotation : pyval) (t : table) : option (pyval -> result pyval) :=
  match t with
  | [] => None
  | (annotations, convert) :: t' =>
      if member annotation annotations then Some convert else lookup annotation t'
  end.

(** [float(n)] for an integer: the nearest float, ties to even, and
    [OverflowError] beyond the largest one. *)
Definition float_of_int (z : Z) : result float :=
  match binary_normalize prec emax z 0 false with
  | S754_infinity _ => Err OverflowError
  | x => Ok (SF2Prim x)
  end.

(** [int(x)] for a float: truncation towards zero. *)
Definition int_of_float (x : float) : result Z :=
  match Prim2SF x with
  | S754_zero _ => Ok 0%Z
  | S754_infinity _ => Err OverflowError
  | S754_nan => Err ValueError
  | S754_finite negative m e =>
      let magnitude := Z.shiftl (Z.pos m) e in
      Ok (if negative then - magnitude else magnitude)%Z
  end.

(** What the converters need of the library beyond the conversions above:
    the text form of floating-point numbers and its parsing, [int] of a
    [str], and [str()] of an object that is not a [str]. *)
Class Builtins := {
  str_of_float : float -> pystr;
  float_of_str : pystr -> result float;
  float_of_bytes : bytes -> result float;
  int_of_str : pystr -> result Z;
  str_of_object : pyval -> pystr
}.

Section Tables.

Context {builtins : Builtins}.

(** [int(v)] *)
Definition py_int (v : pyval) : result Z :=
  match v with
  | VInt z => Ok z
  | VFloat x => int_of_float x
  | VStr s => int_of_str s
  | VBytes b => int_of_bytes b
  | _ => Err TypeError
  end.

(** [float(v)] *)
Definition py_float (v : pyval) : result float :=
  match v with
  | VInt z => float_of_int z
  | VFloat x => Ok x
  | VStr s => float_of_str s
  | VBytes b => float_of_bytes b
  | _ => Err TypeError
  end.

(** [v.decode(...)], a method of [bytes] only. *)
Definition py_decode (codec : bytes -> result pystr) (v : pyval) : result pystr :=
  match v with
  | VBytes b => codec b
  | _ => Err AttributeError
  end.

(** [v.encode(...)], a method of [str] only. *)
Definition py_encode (codec : pystr -> result bytes) (v : pyval) : result bytes :=
  match v with
  | VStr s => codec s
  | _ => Err AttributeError
  end.

(** [v.isoformat()] *)
Definition py_isoformat (v : pyval) : result pystr :=
  match v with
  | VTime t => Ok (isoformat t)
  | _ => Err AttributeError
  end.

Definition DECODERS : table := [
  ([str_of "Int"; str_of "I"],
     fun v => z <- py_int v ;; Ok (VInt z));
  ([str_of "Float"; str_of "F"],
     fun v => x <- py_float v ;; Ok (VFloat x));
  ([str_of "Unicode"; str_of "U"],
     fun v => s <- py_decode utf8_decode v ;; Ok (VStr s));
  ([str_of "ASCII"; str_of "A"],
     fun v => s <- py_decode ascii_decode v ;; Ok (VStr s));
  ([str_of "Time"; str_of "T"],
     fun v => s <- py_decode utf8_decode v ;; t <- fromisoformat s ;; Ok (VTime t))
].

Definition ENCODERS : table := [
  ([str_of "Int"; str_of "I"],
     fun v => z <- py_int v ;; b <- utf8_encode (str_of_int z) ;; Ok (VBytes b));
  ([str_of "Float"; str_of "F"],
     fun v => x <- py_float v ;; b <- utf8_encode (str_of_float x) ;; Ok (VBytes b));
  ([str_of "Unicode"; str_of "U"],
     fun v => b <- py_encode utf8_encode v ;; Ok (VBytes b));
  ([str_of "ASCII"; str_of "A"],
     fun v => b <- py_encode ascii_encode v ;; Ok (VBytes b));
  ([str_of "Time"; str_of "T"],
     fun v => s <- py_isoformat v ;; b <- utf8_encode s ;; Ok (VBytes b))
].

End Tables.

(** The type-annotation table: classes with their annotation, in
    insertion order. *)
Definition types_table := list (pytype * pyval).

Definition TYPES : types_table := [
  (TInt, VStr (str_of "I"));
  (TFloat, VStr (str_of "F"));
  (TStr, VStr (str_of "U"));
  (TDatetime, VStr (str_of "T"))
].

(** ** Keys *)

Definition bang : N := 33.

(** ['!' in key] *)
Definition contains (c : N) (s : pystr) : bool := existsb (N.eqb c) s.

(** [key.split('!', maxsplit=1)] *)
Fixpoint split_once (sep : N) (s : pystr) : list pystr :=
  match s with
  | [] => [[]]
  | c :: s' =>
      if N.eqb c sep then [[]; s']
      else match split_once sep s' with
           | h :: t => (c :: h) :: t
           | [] => [[c]]
           end
  end.

(** ** Decoding *)

(** A fallback of [decode_line]: a function of the annotation and the raw
    value. *)
Definition fallback := pystr -> pyval -> result pyval.

Definition raise_decoding_error : fallback :=
  fun annotation value =>
    Err (DecodingError (str_of "unrecognized annotation: " ++ annotation)).

(** [decode_line(stream, decoders, default)], reading the iterator
    [stream]. *)
Fixpoint decode_line (stream : list line) (decoders : option table)
    (default : option fallback) : run :=
  match stream with
  | [] => raise EOFError []
  | Pending :: stream' => emit Pending (decode_line stream' decoders default)
  | Blank :: stream' => yield_return Blank stream'
  | KeyValue key value :: stream' =>
      if negb (contains bang key) then yield_return (KeyValue key value) stream'
      else
        match split_once bang key with
        | [key; annotation] =>
            match decoders with
            | None =>
                yield_return (KeyValue key (VTuple [VStr annotation; value])) stream'
            | Some decoders =>
                match lookup (VStr annotation) decoders with
                | Some decode =>
                    match decode value with
                    | Ok v => yield_return (KeyValue key v) stream'
                    | Err e => raise e stream'
                    end
                | None =>
                    match default with
                    | Some default =>
                        match default annotation value with
                        | Ok v => yield_return (KeyValue key v) stream'
                        | Err e => raise e stream'
                        end
                    | None =>
                        yield_return (KeyValue key (VTuple [VStr annotation; value])) stream'
                    end
                end
            end
        | _ => raise ValueError stream'
        end
  end.

(** [decode_block(stream, decoders, default)]. Its loop calls
    [decode_line(stream, decoders)]: the fallback of these calls is the
    default one of [decode_line], whatever [default] is. The loop ends
    when a call raises; [fuel] bounds the number of its turns, and one
    more than the number of lines left in the stream is enough of it. *)
Fixpoint decode_block_loop (fuel : nat) (stream : list line)
    (decoders : option table) : option run :=
  match fuel with
  | O => None
  | S fuel' =>
      let r := decode_line stream decoders (Some raise_decoding_error) in
      match ended r with
      | Returned =>
          match decode_block_loop fuel' (remaining r) decoders with
          | Some r' => Some (emits (yielded r) r')
          | None => None
          end
      | Raised EOFError => Some (mkRun (yielded r) Returned (remaining r))
      | Raised _ => Some r
      end
  end.

Definition decode_block (stream : list line) (decoders : option table)
    (default : option fallback) : option run :=
  decode_block_loop (S (List.length stream)) stream decoders.

(** The value that [decode_line] computes for the value of an annotated
    line: what the ladder of its tests amounts to. *)
Definition converted (annotation : pystr) (value : pyval)
    (decoders : option table) (default : option fallback) : result pyval :=
  match decoders with
  | None => Ok (VTuple [VStr annotation; value])
  | Some decoders =>
      match lookup (VStr annotation) decoders with
      | Some decode => decode value
      | None =>
          match default with
          | Some default => default annotation value
          | None => Ok (VTuple [VStr annotation; value])
          end
      end
  end.

(** An annotation that belongs to no synonym set of a table. *)
Definition unknown (annotation : pystr) (t : table) : Prop :=
  forall annotations convert, In (annotations, convert) t -> ~ In annotation annotations.

(** A stream that holds nothing but "not ready" markers. *)
Definition only_pending (stream : list line) : Prop :=
  Forall (fun l => l = Pending) stream.


(** The reading of a single decode under which [n] markers and one more
    line always give the [n] markers and one real record. *)
Definition one_record_after_markers (n : nat) (l : line)
    (decoders : option table) (default : option fallback) : Prop :=
  exists r,
    r <> Pending
    /\ decode_line (repeat Pending n ++ [l]) decoders default
       = mkRun (repeat Pending n ++ [r]) Returned [].

(** ** Encoding *)

(** A default handler of [encode_line]: a function of the annotation and
    the value. *)
Definition handler := pyval -> pyval -> result pyval.

Definition ensure_encoded : handler :=
  fun annotation value =>
    match value with
    | VBytes _ => Ok value
    | _ => Err (EncodingError value annotation)
    end.

(** The annotation of the first class of [types], in table order, of
    which the value is an instance; [None] when there is none. *)
Fixpoint infer (types : types_table) (value : pyval) : pyval :=
  match types with
  | [] => VNone
  | (t, a) :: types' => if isinstance value t then a else infer types' value
  end.

Definition is_none (v : pyval) : bool :=
  match v with
  | VNone => true
  | _ => false
  end.

Section Encode.

Context {builtins : Builtins}.

(** The text an f-string puts for a value. *)
Definition format_value (v : pyval) : pystr :=
  match v with
  | VStr s => s
  | _ => str_of_object v
  end.

(** [encode_line(key_and_value, encoders, default, types)] *)
Definition encode_line (key_and_value : line) (encoders : option table)
    (default : handler) (types : option types_table) : result line :=
  match key_and_value with
  | Pending => Ok Pending
  | Blank => Ok Blank
  | KeyValue key value =>
      let encoders := match encoders with Some e => e | None => [] end in
      let types := match types with Some t => t | None => [] end in
      '(annotation, value) <-
        match value with
        | VTuple [annotation; value] => Ok (annotation, value)
        | VTuple _ => Err ValueError
        | _ => Ok (VNone, value)
        end ;;
      let annotation := if is_none annotation then infer types value else annotation in
      value <-
        match lookup annotation encoders with
        | Some encode => encode value
        | None => Ok value
        end ;;
      value <- default annotation value ;;
      _ <- ensure_encoded annotation value ;;
      let key := if is_none annotation then key
                 else key ++ bang :: format_value annotation in
      Ok (KeyValue key value)
  end.

(** [encode_block(lines, encoders, default, types)] *)
Fixpoint encode_block (lines : list line) (encoders : option table)
    (default : handler) (types : option types_table) : run :=
  match lines with
  | [] => mkRun [] Returned []
  | l :: lines' =>
      match encode_line l encoders default types with
      | Ok x => emit x (encode_block lines' encoders default types)
      | Err e => raise e lines'
      end
  end.

(** The steps of [encode_line] up to and including the conversion by the
    table, for the value part of a record: the annotation in force and
    the value after the table-conversion step. *)
Definition table_conversion (value : pyval) (encoders : option table)
    (types : option types_table) : result (pyval * pyval) :=
  let encoders := match encoders with Some e => e | None => [] end in
  let types := match types with Some t => t | None => [] end in
  '(annotation, value) <-
    match value with
    | VTuple [annotation; value] => Ok (annotation, value)
    | VTuple _ => Err ValueError
    | _ => Ok (VNone, value)
    end ;;
  let annotation := if is_none annotation then infer types value else annotation in
  match lookup annotation encoders with
  | Some encode => value <- encode value ;; Ok (annotation, value)
  | None => Ok (annotation, value)
  end.

(** The key that [encode_line] gives back. *)
Definition annotated_key_of (key : pystr) (annotation : pyval) : pystr :=
  if is_none annotation then key else key ++ bang :: format_value annotation.

(** The steps of [encode_line] from the conversion by the table on, with
    the annotation in force. *)
Definition encode_annotated (key : pystr) (annotation value : pyval)
    (encoders : option table) (default : handler) : result line :=
  let encoders := match encoders with Some e => e | None => [] end in
  value <-
    match lookup annotation encoders with
    | Some encode => encode value
    | None => Ok value
    end ;;
  value <- default annotation value ;;
  _ <- ensure_encoded annotation value ;;
  Ok (KeyValue (annotated_key_of key annotation) value).

Definition is_bytes (v : pyval) : bool :=
  match v with
  | VBytes _ => true
  | _ => false
  end.

End Encode.

(** ** Values that go through both pipelines *)

Section RoundTrip.

Context {builtins : Builtins}.

(** The library reads the float [x] back from the text it writes for it:
    [float(str(x).encode()) == x]. *)
Definition float_text_round_trip (x : float) : Prop :=
  exists b, utf8_encode (str_of_float x) = Ok b /\ float_of_bytes b = Ok x.

(** An integer, a float, a string of Unicode scalar values (ASCII text
    included) or a timestamp. *)
Definition round_trip_value (v : pyval) : Prop :=
  match v with
  | VInt _ => True
  | VFloat x => float_text_round_trip x
  | VStr s => forallb scalar_value s = true
  | VTime t => valid_datetime t = true
  | _ => False
  end.

End RoundTrip.

(** ** A sample of the float conversions

    An instance of [Builtins] on which the definitions can be run: the
    text of a float is looked up in a short extract of what Python
    writes, and read back from it. It stands for the library on these
    floats only; elsewhere it answers as for [nan]. *)

Definition float_texts : list (float * string) := [
  (0%float, "0.0"%string);
  (1%float, "1.0"%string);
  (2%float, "2.0"%string);
  (0.5%float, "0.5"%string);
  (0x1.91eb851eb851fp+1%float, "3.14"%string);
  (infinity, "inf"%string);
  (neg_infinity, "-inf"%string)
].

Fixpoint text_of_float (texts : list (float * string)) (x : float) : pystr :=
  match texts with
  | [] => str_of "nan"
  | (y, s) :: texts' => if PrimFloat.Leibniz.eqb x y then str_of s else text_of_float texts' x
  end.

Fixpoint float_of_text (texts : list (float * string)) (s : pystr) : result float :=
  match texts with
  | [] => if str_eqb s (str_of "nan") then Ok nan else Err ValueError
  | (y, t) :: texts' => if str_eqb s (str_of t) then Ok y else float_of_text texts' s
  end.

Definition sample_builtins : Builtins := {|
  str_of_float := text_of_float float_texts;
  float_of_str := float_of_text float_texts;
  float_of_bytes := fun b => float_of_text float_texts (map Byte.to_N b);
  int_of_str := int_of_text;
  str_of_object := fun v =>
    match v with
    | VNone => str_of "None"
    | VInt z => str_of_int z
    | VFloat x => text_of_float float_texts x
    | _ => str_of "<object>"
    end
|}.

(** ** Vocabulary of the further properties *)

(** No key among the items holds a ['!']. *)
Definition plain_keys (items : list line) : Prop :=
  Forall (fun l => match l with
                   | KeyValue k _ => contains bang k = false
                   | _ => True
                   end) items.

(** A line and the item it gives when decoded on its own, under the
    raising fallback: a marker gives a marker, any other line the one
    record that [decode_line] yields for it. *)
Definition decodes_to (decoders : option table) (l x : line) : Prop :=
  (l = Pending /\ x = Pending)
  \/ (l <> Pending
      /\ decode_line [l] decoders (Some raise_decoding_error) = yield_return x []).

(** A line that is not a marker and whose decoding, on its own and under
    the raising fallback, raises [e]. *)
Definition decoding_raises (decoders : option table) (l : line) (e : exn) : Prop :=
  l <> Pending
  /\ decode_line [l] decoders (Some raise_decoding_error) = raise e [].

(** The entries of a table whose synonym set holds the annotation. *)
Definition matching (annotation : pystr) (t : table) : table :=
  filter (fun entry => member (VStr annotation) (fst entry)) t.

(** The synonym sets of a table are pairwise disjoint: no annotation
    belongs to two entries. *)
Definition disjoint_sets (t : table) : Prop :=
  forall annotation, (List.length (matching annotation t) <= 1)%nat.

(** The long names and short codes of the default tables. *)
Definition synonyms : list (pystr * pystr) := [
  (str_of "Int", str_of "I");
  (str_of "Float", str_of "F");
  (str_of "Unicode", str_of "U");
  (str_of "ASCII", str_of "A");
  (str_of "Time", str_of "T")
].

Section ExtraDefs.

Context {builtins : Builtins}.



End ExtraDefs.

(** A record, the line it is written as, and a line with an annotation
    that the default tables do not know. *)
Definition sample_record : line := KeyValue (str_of "x") (VInt 1).
Definition sample_line : line := KeyValue (str_of "x!I") (VBytes (bytes_of "1")).
Definition unknown_line : line := KeyValue (str_of "x!Q") (VBytes (bytes_of "z")).

(** * Properties *)

Ltac Zify.zify_post_hook ::= Z.to_euclidean_division_equations.

(** ** Keys and tables *)

Lemma str_eqb_eq a b : str_eqb a b = true <-> a = b.
Proof.
  revert b. induction a as [|x a IH]; intros [|y b]; simpl; split;
    try congruence; try reflexivity.
  - intros H. apply andb_true_iff in H as [Hx Ha].
    apply N.eqb_eq in Hx. apply IH in Ha. congruence.
  - intros H. injection H as -> ->.
    rewrite N.eqb_refl. simpl. now apply IH.
Qed.

Lemma member_In a annotations :
  member (VStr a) annotations = true <-> In a annotations.
Proof.
  unfold member. rewrite existsb_exists. split.
  - intros (x & Hin & Heq). apply str_eqb_eq in Heq. now subst.
  - intros Hin. exists a. split; [assumption | now apply str_eqb_eq].
Qed.

Lemma lookup_unknown a t : unknown a t -> lookup (VStr a) t = None.
Proof.
  induction t as [|[annotations convert] t IH]; intros H; cbn [lookup].
  - reflexivity.
  - destruct (member (VStr a) annotations) eqn:E.
    + apply member_In in E. exfalso. apply (H annotations convert); [now left | assumption].
    + apply IH. intros ann c Hin. apply (H ann c). now right.
Qed.

Lemma contains_bang_app k a : contains bang (k ++ bang :: a) = true.
Proof.
  unfold contains. rewrite existsb_app. cbn [existsb].
  rewrite N.eqb_refl. apply orb_true_r.
Qed.

Lemma split_once_bang k a :
  contains bang k = false -> split_once bang (k ++ bang :: a) = [k; a].
Proof.
  unfold contains.
  induction k as [|c k IH]; intros H.
  - cbn [app split_once]. now rewrite N.eqb_refl.
  - cbn [existsb] in H. apply orb_false_iff in H as [Hc Hk].
    cbn [app split_once]. rewrite N.eqb_sym, Hc, (IH Hk). reflexivity.
Qed.

(** Every key that holds a ['!'] reads [k!a] with no ['!'] in [k]. *)
Lemma annotated_key key :
  contains bang key = true ->
  exists k a, key = k ++ bang :: a /\ contains bang k = false.
Proof.
  unfold contains.
  induction key as [|c key IH]; cbn [existsb]; intros H.
  - discriminate.
  - destruct (N.eqb bang c) eqn:E.
    + apply N.eqb_eq in E. subst c. exists [], key. split; reflexivity.
    + cbn [orb] in H. destruct (IH H) as (k & a & -> & Hk).
      exists (c :: k), a. split; [reflexivity|].
      cbn [existsb]. now rewrite E.
Qed.

(** ** One line *)

Lemma decode_line_plain key v rest decoders default :
  contains bang key = false ->
  decode_line (KeyValue key v :: rest) decoders default
  = yield_return (KeyValue key v) rest.
Proof. intros H. simpl. rewrite H. reflexivity. Qed.

Lemma decode_line_annotated k a v rest decoders default :
  contains bang k = false ->
  decode_line (KeyValue (k ++ bang :: a) v :: rest) decoders default
  = match converted a v decoders default with
    | Ok r => yield_return (KeyValue k r) rest
    | Err e => raise e rest
    end.
Proof.
  intros H. cbn [decode_line].
  rewrite contains_bang_app, (split_once_bang k a H). cbn [negb].
  unfold converted.
  destruct decoders as [t|]; [|reflexivity].
  destruct (lookup (VStr a) t); [reflexivity|].
  destruct default; reflexivity.
Qed.

Lemma decode_line_markers pre stream decoders default :
  only_pending pre ->
  decode_line (pre ++ stream) decoders default
  = emits pre (decode_line stream decoders default).
Proof.
  induction 1 as [|l pre Hl _ IH]; simpl.
  - now destruct (decode_line stream decoders default).
  - subst l. rewrite IH. reflexivity.
Qed.

Lemma decode_line_only_pending stream decoders default :
  only_pending stream ->
  decode_line stream decoders default = mkRun stream (Raised EOFError) [].
Proof.
  intros H. rewrite <- (app_nil_r stream) at 1.
  rewrite (decode_line_markers stream [] decoders default H). simpl.
  unfold emits. simpl. now rewrite app_nil_r.
Qed.

Lemma only_pending_repeat n : only_pending (repeat Pending n).
Proof. induction n; simpl; constructor; auto. Qed.

(** [decode_line] never gives back more than it was given, and a call
    that returns has taken a line. *)
Lemma decode_line_remaining stream decoders default :
  (List.length (remaining (decode_line stream decoders default))
   <= List.length stream)%nat.
Proof.
  induction stream as [|l stream IH]; simpl; [lia|].
  destruct l as [| |key v]; simpl; try lia.
  destruct (negb (contains bang key)); simpl; [lia|].
  destruct (split_once bang key) as [|k [|a [|? ?]]]; simpl; try lia.
  destruct decoders as [t|]; simpl; [|lia].
  destruct (lookup (VStr a) t) as [decode|].
  - destruct (decode v); simpl; lia.
  - destruct default as [f|]; simpl; [|lia]. destruct (f a v); simpl; lia.
Qed.

Lemma decode_line_returned stream decoders default :
  ended (decode_line stream decoders default) = Returned ->
  (List.length (remaining (decode_line stream decoders default))
   < List.length stream)%nat.
Proof.
  induction stream as [|l stream IH]; simpl; [discriminate|].
  destruct l as [| |key v]; simpl; try lia.
  destruct (negb (contains bang key)); simpl; [lia|].
  destruct (split_once bang key) as [|k [|a [|? ?]]]; simpl; try discriminate.
  destruct decoders as [t|]; simpl; [|lia].
  destruct (lookup (VStr a) t) as [decode|].
  - destruct (decode v); simpl; [lia | discriminate].
  - destruct default as [f|]; simpl; [|lia].
    destruct (f a v); simpl; [lia | discriminate].
Qed.

(** ** Blocks *)

(** The loop of [decode_block] needs no more iterations than the stream
    has lines, plus the one that meets the end of the stream. *)
Lemma decode_block_loop_fuel fuel fuel' stream decoders :
  (List.length stream < fuel)%nat ->
  (List.length stream < fuel')%nat ->
  decode_block_loop fuel stream decoders = decode_block_loop fuel' stream decoders.
Proof.
  revert fuel' stream.
  induction fuel as [|fuel IH]; intros [|fuel'] stream H H'; try lia.
  cbn [decode_block_loop].
  destruct (ended (decode_line stream decoders (Some raise_decoding_error))) eqn:E;
    [|reflexivity].
  pose proof (decode_line_returned _ _ _ E) as Hlt.
  rewrite (IH fuel') by lia. reflexivity.
Qed.

(** One turn of the loop of [decode_block]. *)
Lemma decode_block_unfold stream decoders default :
  decode_block stream decoders default
  = let r := decode_line stream decoders (Some raise_decoding_error) in
    match ended r with
    | Returned =>
        match decode_block (remaining r) decoders default with
        | Some r' => Some (emits (yielded r) r')
        | None => None
        end
    | Raised EOFError => Some (mkRun (yielded r) Returned (remaining r))
    | Raised _ => Some r
    end.
Proof.
  unfold decode_block at 1. cbn [decode_block_loop]. cbv zeta.
  destruct (ended (decode_line stream decoders (Some raise_decoding_error))) eqn:E;
    [|reflexivity].
  pose proof (decode_line_returned _ _ _ E) as Hlt.
  unfold decode_block.
  rewrite (decode_block_loop_fuel (List.length stream)
             (S (List.length (remaining (decode_line stream decoders
                                           (Some raise_decoding_error)))))
             _ decoders)
    by lia.
  reflexivity.
Qed.


(** ** Text conversions *)

Open Scope N_scope.

Lemma byte_of_to_N n : n < 256 -> Byte.to_N (byte_of n) = n.
Proof.
  intros H. unfold byte_of. destruct (Byte.of_N n) as [b|] eqn:E.
  - now apply Byte.to_of_N.
  - apply Byte.of_N_None_iff in E. lia.
Qed.

Lemma byte_of_of_to_N b : byte_of (Byte.to_N b) = b.
Proof. unfold byte_of. now rewrite Byte.of_to_N. Qed.

Lemma Ok_inj {A} (a b : A) : Ok a = Ok b -> a = b.
Proof. congruence. Qed.

Lemma Some_inj {A} (a b : A) : Some a = Some b -> a = b.
Proof. congruence. Qed.

Ltac decide_tests :=
  repeat match goal with
    | |- context [N.ltb ?a ?b] => destruct (N.ltb_spec a b); try lia
    | |- context [N.leb ?a ?b] => destruct (N.leb_spec a b); try lia
    end;
  cbn [negb andb orb].

(** *** UTF-8 *)

(** Decoding the encoding of one code point gives it back, whatever
    follows. *)
Lemma utf8_decode_encode_char c b rest :
  utf8_encode_char c = Ok b ->
  utf8_decode (b ++ rest) = s <- utf8_decode rest ;; Ok (c :: s).
Proof.
  unfold utf8_encode_char.
  destruct (N.ltb_spec c 0x80); [|destruct (N.ltb_spec c 0x800);
    [|destruct (N.ltb_spec c 0x10000);
      [destruct ((0xD800 <=? c) && (c <=? 0xDFFF)) eqn:Hs
      |destruct (N.ltb_spec c 0x110000)]]];
    intros Hb; try discriminate Hb; apply Ok_inj in Hb; subst b;
    cbn [app utf8_decode]; unfold continuation;
    rewrite ?byte_of_to_N by lia.
  - decide_tests. reflexivity.
  - decide_tests.
    replace ((0xC0 + c / 64 - 0xC0) * 64 + (0x80 + c mod 64 - 0x80)) with c by lia.
    reflexivity.
  - replace ((0xE0 + c / 4096 - 0xE0) * 4096
             + (0x80 + (c / 64) mod 64 - 0x80) * 64
             + (0x80 + c mod 64 - 0x80)) with c by lia.
    rewrite Hs. decide_tests. reflexivity.
  - replace ((0xF0 + c / 262144 - 0xF0) * 262144
             + (0x80 + (c / 4096) mod 64 - 0x80) * 4096
             + (0x80 + (c / 64) mod 64 - 0x80) * 64
             + (0x80 + c mod 64 - 0x80)) with c by lia.
    decide_tests. reflexivity.
Qed.

Lemma utf8_decode_encode s b : utf8_encode s = Ok b -> utf8_decode b = Ok s.
Proof.
  revert b. induction s as [|c s IH]; cbn [utf8_encode]; intros b.
  - intros H. injection H as <-. reflexivity.
  - destruct (utf8_encode_char c) as [bc|] eqn:Ec; cbn [bind]; [|discriminate].
    destruct (utf8_encode s) as [bs|]; cbn [bind]; [|discriminate].
    intros H. injection H as <-.
    rewrite (utf8_decode_encode_char c bc bs Ec), (IH bs eq_refl). reflexivity.
Qed.

(** A string of scalar values has an encoding. *)
Lemma utf8_encode_scalar s :
  forallb scalar_value s = true -> exists b, utf8_encode s = Ok b.
Proof.
  induction s as [|c s IH]; cbn [forallb utf8_encode]; intros H.
  - eauto.
  - apply andb_true_iff in H as [Hc Hs]. destruct (IH Hs) as [bs ->].
    assert (exists bc, utf8_encode_char c = Ok bc) as [bc ->].
    { unfold scalar_value in Hc. apply andb_true_iff in Hc as [Hlt Hsur].
      apply N.ltb_lt in Hlt. apply negb_true_iff in Hsur.
      unfold utf8_encode_char. rewrite Hsur.
      destruct (c <? 0x80); [eauto|]. destruct (c <? 0x800); [eauto|].
      destruct (c <? 0x10000); [eauto|].
      destruct (N.ltb_spec c 0x110000); [eauto | lia]. }
    cbn [bind]. eauto.
Qed.

(** Text of ASCII characters is encoded byte for character. *)
Lemma utf8_encode_ascii s :
  Forall (fun c => c < 0x80) s -> utf8_encode s = Ok (map byte_of s).
Proof.
  induction 1 as [|c s Hc _ IH]; cbn [utf8_encode map].
  - reflexivity.
  - unfold utf8_encode_char. apply N.ltb_lt in Hc. rewrite Hc, IH. reflexivity.
Qed.

Lemma map_to_N_byte_of s :
  Forall (fun c => c < 0x80) s -> map Byte.to_N (map byte_of s) = s.
Proof.
  induction 1 as [|c s Hc _ IH]; cbn [map].
  - reflexivity.
  - rewrite IH, byte_of_to_N by lia. reflexivity.
Qed.

(** *** ASCII *)

Lemma ascii_decode_encode s b : ascii_encode s = Ok b -> ascii_decode b = Ok s.
Proof.
  revert b. induction s as [|c s IH]; cbn [ascii_encode]; intros b.
  - intros H. injection H as <-. reflexivity.
  - destruct (N.ltb_spec c 0x80) as [Hc|Hc]; [|discriminate].
    destruct (ascii_encode s) as [bs|]; cbn [bind]; [|discriminate].
    intros Hb. apply Ok_inj in Hb. subst b. cbn [ascii_decode].
    rewrite byte_of_to_N by lia.
    apply N.ltb_lt in Hc. rewrite Hc.
    rewrite (IH bs eq_refl). reflexivity.
Qed.

Lemma ascii_encode_ascii s :
  Forall (fun c => c < 0x80) s -> exists b, ascii_encode s = Ok b.
Proof.
  induction 1 as [|c s Hc _ [b IH]]; cbn [ascii_encode].
  - eauto.
  - apply N.ltb_lt in Hc. rewrite Hc, IH. cbn [bind]. eauto.
Qed.

(** *** Integers *)

Lemma digits_of_uint_digits u : Forall is_digit_char (digits_of_uint u).
Proof.
  induction u; cbn [digits_of_uint]; constructor; auto; unfold is_digit_char; lia.
Qed.

Lemma parse_digits_of_uint after_digit u :
  parse_digits after_digit (digits_of_uint u)
  = match u with
    | Decimal.Nil => if after_digit then Some Decimal.Nil else None
    | _ => Some u
    end.
Proof.
  revert after_digit.
  induction u as [|u IH|u IH|u IH|u IH|u IH|u IH|u IH|u IH|u IH|u IH];
    intros after_digit; cbn [digits_of_uint parse_digits];
    [reflexivity|..];
    cbn [digit_of]; rewrite IH; destruct u; reflexivity.
Qed.

Lemma lstrip_no_space s :
  Forall (fun c => is_space c = false) s -> lstrip s = s.
Proof.
  intros H. destruct H as [|c s Hc _]; cbn [lstrip]; [reflexivity|].
  now rewrite Hc.
Qed.

Lemma strip_no_space s :
  Forall (fun c => is_space c = false) s -> strip s = s.
Proof.
  intros H. unfold strip. rewrite (lstrip_no_space s H).
  rewrite lstrip_no_space; [apply rev_involutive|].
  apply Forall_rev. exact H.
Qed.

Lemma digit_no_space c : is_digit_char c -> is_space c = false.
Proof.
  unfold is_digit_char, is_space. intros H.
  decide_tests. destruct (N.eqb_spec c 32); [lia | reflexivity].
Qed.

(** [int] reads back what [str] writes. *)
Lemma int_of_text_str_of_int z : int_of_text (str_of_int z) = Ok z.
Proof.
  unfold int_of_text, str_of_int.
  pose proof (DecimalZ.of_to z) as Hz.
  assert (Hnonnil : match Z.to_int z with
                    | Decimal.Pos u | Decimal.Neg u => u <> Decimal.Nil
                    end).
  { destruct z; cbn [Z.to_int]; try apply DecimalPos.Unsigned.to_uint_nonnil.
    discriminate. }
  destruct (Z.to_int z) as [u|u].
  - rewrite strip_no_space.
    2:{ eapply Forall_impl; [apply digit_no_space | apply digits_of_uint_digits]. }
    assert (Hbody : match digits_of_uint u with
                    | 45 :: body => (true, body)
                    | 43 :: body => (false, body)
                    | _ => (false, digits_of_uint u)
                    end = (false, digits_of_uint u)).
    { destruct u; reflexivity. }
    rewrite Hbody, parse_digits_of_uint.
    destruct u; try congruence.
  - rewrite strip_no_space.
    2:{ constructor; [reflexivity|].
        eapply Forall_impl; [apply digit_no_space | apply digits_of_uint_digits]. }
    rewrite parse_digits_of_uint.
    destruct u; try congruence.
Qed.

Lemma str_of_int_ascii z : Forall (fun c => c < 0x80) (str_of_int z).
Proof.
  unfold str_of_int.
  assert (H : forall u, Forall (fun c => c < 0x80) (digits_of_uint u)).
  { intros u. eapply Forall_impl; [|apply digits_of_uint_digits].
    unfold is_digit_char. intros; lia. }
  destruct (Z.to_int z); [apply H|]. constructor; [lia | apply H].
Qed.

Close Scope N_scope.

(** *** Timestamps *)

Open Scope N_scope.

Lemma fixed_digits_length w n : List.length (fixed_digits w n) = w.
Proof. induction w; cbn [fixed_digits List.length]; congruence. Qed.

Lemma fixed_digits_digits w n : Forall is_digit_char (fixed_digits w n).
Proof.
  induction w; cbn [fixed_digits]; constructor; auto.
  unfold is_digit_char. generalize (n / 10 ^ N.of_nat w). intros x. lia.
Qed.

(** Reading [w] digits reads back a number written with [w] digits. *)
Lemma take_number_fixed_digits w n acc rest :
  take_number w acc (fixed_digits w n ++ rest)
  = Ok (acc * 10 ^ N.of_nat w + n mod 10 ^ N.of_nat w, rest).
Proof.
  revert acc. induction w as [|w IH]; intros acc.
  - cbn [fixed_digits app take_number N.of_nat].
    rewrite N.pow_0_r, N.mod_1_r. do 2 f_equal. lia.
  - cbn [fixed_digits app take_number].
    assert (Hd : is_digit (48 + (n / 10 ^ N.of_nat w) mod 10) = true).
    { unfold is_digit. generalize (n / 10 ^ N.of_nat w). intros x.
      decide_tests; reflexivity. }
    rewrite Hd, IH. do 2 f_equal.
    rewrite Nat2N.inj_succ, N.pow_succ_r'.
    set (p := 10 ^ N.of_nat w).
    rewrite (N.mul_comm 10 p), N.Div0.mod_mul_r.
    generalize (n mod p) ((n / p) mod 10). clearbody p. intros r d. lia.
Qed.

Lemma take_number_fixed w n rest :
  n < 10 ^ N.of_nat w ->
  take_number w 0 (fixed_digits w n ++ rest) = Ok (n, rest).
Proof.
  intros H. rewrite take_number_fixed_digits, N.mod_small by exact H.
  reflexivity.
Qed.

Lemma take_2 n rest :
  n < 100 -> take_number 2 0 (fixed_digits 2 n ++ rest) = Ok (n, rest).
Proof. intros H. apply take_number_fixed. exact H. Qed.

Lemma take_4 n rest :
  n < 10000 -> take_number 4 0 (fixed_digits 4 n ++ rest) = Ok (n, rest).
Proof. intros H. apply take_number_fixed. exact H. Qed.

Lemma take_6 n rest :
  n < 1000000 -> take_number 6 0 (fixed_digits 6 n ++ rest) = Ok (n, rest).
Proof. intros H. apply take_number_fixed. exact H. Qed.

(** The time of day, followed by an offset or by nothing. *)
Lemma parse_time_of_day hh mm ss us tz :
  hh < 100 -> mm < 100 -> ss < 100 -> us < 1000000 ->
  parse_hh_mm_ss_ff
    (fixed_digits 2 hh ++ 58 :: fixed_digits 2 mm ++ 58 :: fixed_digits 2 ss
       ++ (if us =? 0 then [] else 46 :: fixed_digits 6 us) ++ format_offset tz)
  = Ok (hh, mm, ss, us, format_offset tz).
Proof.
  intros Hh Hm Hs Hu. unfold parse_hh_mm_ss_ff.
  rewrite take_2 by exact Hh. cbn [bind].
  rewrite take_2 by exact Hm. cbn [bind].
  rewrite take_2 by exact Hs. cbn [bind].
  destruct (N.eqb_spec us 0) as [->|Hne].
  - cbn [app]. destruct tz as [off|]; [|reflexivity].
    unfold format_offset. destruct (off <? 0)%Z; reflexivity.
  - cbn [app]. rewrite take_6 by exact Hu. reflexivity.
Qed.

Ltac compute_length :=
  repeat first [ rewrite length_app | rewrite fixed_digits_length
               | progress cbn [List.length] ];
  cbn [Nat.add Nat.eqb orb].

(** The offset that [format_offset] writes after the sign. *)
Lemma parse_offset_of_format a :
  a < 86400000000 ->
  parse_offset
    (fixed_digits 2 (a / 3600000000)
       ++ 58 :: fixed_digits 2 ((a mod 3600000000) / 60000000)
       ++ (if (a mod 3600000000) mod 60000000 =? 0 then []
           else 58 :: fixed_digits 2 (((a mod 3600000000) mod 60000000) / 1000000)
                ++ (if ((a mod 3600000000) mod 60000000) mod 1000000 =? 0 then []
                    else 46 :: fixed_digits 6
                                 (((a mod 3600000000) mod 60000000) mod 1000000))))
  = Ok a.
Proof.
  intros Ha.
  set (hh := a / 3600000000).
  set (mm := (a mod 3600000000) / 60000000).
  set (rest := (a mod 3600000000) mod 60000000).
  assert (Hh : hh < 100) by (subst hh; lia).
  assert (Hm : mm < 100) by (subst mm; lia).
  assert (Hs : rest / 1000000 < 100) by (subst rest; lia).
  assert (Hu : rest mod 1000000 < 1000000) by (subst rest; lia).
  assert (Hsum : ((hh * 60 + mm) * 60 + rest / 1000000) * 1000000
                 + rest mod 1000000 = a) by (subst hh mm rest; lia).
  unfold parse_offset.
  destruct (N.eqb_spec rest 0) as [Hr|Hr].
  - compute_length.
    unfold parse_hh_mm_ss_ff.
    rewrite take_2 by exact Hh. cbn [bind].
    rewrite take_2 by exact Hm. cbn [bind].
    f_equal. clearbody hh mm rest. lia.
  - destruct (N.eqb_spec (rest mod 1000000) 0) as [Hz|Hz].
    + compute_length.
      unfold parse_hh_mm_ss_ff.
      rewrite take_2 by exact Hh. cbn [bind].
      rewrite take_2 by exact Hm. cbn [bind].
      rewrite take_2 by exact Hs. cbn [bind].
      f_equal. clearbody hh mm rest. lia.
    + compute_length.
      unfold parse_hh_mm_ss_ff.
      rewrite take_2 by exact Hh. cbn [bind].
      rewrite take_2 by exact Hm. cbn [bind].
      rewrite take_2 by exact Hs. cbn [bind].
      rewrite <- (app_nil_r (fixed_digits 6 (rest mod 1000000))).
      rewrite take_6 by exact Hu. cbn [bind].
      f_equal. clearbody hh mm rest. lia.
Qed.

Lemma valid_datetime_bounds d :
  valid_datetime d = true ->
  1 <= year d <= 9999 /\ 1 <= month d <= 12
  /\ 1 <= day d <= days_in_month (year d) (month d)
  /\ hour d < 24 /\ minute d < 60 /\ second d < 60
  /\ microsecond d < 1000000
  /\ match utcoffset d with
     | None => True
     | Some off => (- day_us < off < day_us)%Z
     end.
Proof.
  unfold valid_datetime. intros H.
  repeat (apply andb_true_iff in H; destruct H as [H ?]).
  repeat match goal with
    | H : (_ <=? _) = true |- _ => apply N.leb_le in H
    | H : (_ <? _) = true |- _ => apply N.ltb_lt in H
    end.
  repeat split; try assumption.
  destruct (utcoffset d) as [off|]; [|exact I].
  match goal with
  | H : (_ && _)%bool = true |- _ =>
      apply andb_true_iff in H; destruct H as [Hlo Hhi];
      apply Z.ltb_lt in Hlo; apply Z.ltb_lt in Hhi
  end.
  split; assumption.
Qed.

Lemma days_in_month_bound y m : days_in_month y m <= 31.
Proof.
  unfold days_in_month.
  repeat match goal with
    | |- context [match ?x with _ => _ end] => destruct x
    end; lia.
Qed.

(** What follows the date in [isoformat] is read as the time. *)
Lemma parse_isoformat_time_of_isoformat hh mm ss us tz :
  hh < 100 -> mm < 100 -> ss < 100 -> us < 1000000 ->
  match tz with
  | None => True
  | Some off => (- day_us < off < day_us)%Z
  end ->
  parse_isoformat_time
    (fixed_digits 2 hh ++ 58 :: fixed_digits 2 mm ++ 58 :: fixed_digits 2 ss
       ++ (if us =? 0 then [] else 46 :: fixed_digits 6 us) ++ format_offset tz)
  = Ok (hh, mm, ss, us, tz).
Proof.
  intros Hh Hm Hs Hu Htz. unfold parse_isoformat_time.
  rewrite parse_time_of_day by assumption. cbn [bind].
  destruct tz as [off|]; [|reflexivity].
  unfold day_us in Htz.
  assert (Ha : Z.to_N (Z.abs off) < 86400000000) by lia.
  unfold format_offset. cbv zeta.
  destruct (Z.ltb_spec off 0) as [Hneg|Hpos].
  - change (45 =? 45) with true. cbv iota.
    rewrite (parse_offset_of_format _ Ha). cbn [bind].
    do 3 f_equal. lia.
  - change (43 =? 45) with false. change (43 =? 43) with true. cbv iota.
    rewrite (parse_offset_of_format _ Ha). cbn [bind].
    do 3 f_equal. lia.
Qed.

(** [fromisoformat] reads back what [isoformat] writes. *)
Lemma fromisoformat_isoformat d :
  valid_datetime d = true -> fromisoformat (isoformat d) = Ok d.
Proof.
  intros Hvalid.
  destruct (valid_datetime_bounds d Hvalid)
    as (Hy & Hmo & Hd & Hh & Hmi & Hs & Hu & Htz).
  pose proof (days_in_month_bound (year d) (month d)) as Hdim.
  destruct d as [y m dd hh mm ss us tz].
  cbn [year month day hour minute second microsecond utcoffset] in *.
  unfold fromisoformat, isoformat.
  cbn [year month day hour minute second microsecond utcoffset].
  rewrite take_4 by lia. cbn [bind expect].
  change (45 =? 45) with true. cbv iota. cbn [bind].
  rewrite take_2 by lia. cbn [bind expect].
  change (45 =? 45) with true. cbv iota. cbn [bind].
  rewrite take_2 by lia. cbn [bind].
  destruct (fixed_digits 2 hh ++ 58 :: fixed_digits 2 mm ++ 58 :: fixed_digits 2 ss
              ++ (if us =? 0 then [] else 46 :: fixed_digits 6 us)
              ++ format_offset tz) as [|c t] eqn:E.
  { apply (f_equal (@List.length N)) in E.
    rewrite length_app, fixed_digits_length in E. discriminate E. }
  rewrite <- E.
  rewrite parse_isoformat_time_of_isoformat by (assumption || lia).
  cbn [bind]. unfold datetime_new. rewrite Hvalid. reflexivity.
Qed.

Lemma isoformat_ascii d : Forall (fun c => c < 0x80) (isoformat d).
Proof.
  assert (Hdig : forall w n, Forall (fun c => c < 0x80) (fixed_digits w n)).
  { intros w n. eapply Forall_impl; [|apply fixed_digits_digits].
    unfold is_digit_char. intros; lia. }
  unfold isoformat.
  repeat first [ apply Forall_app; split | apply Forall_cons | apply Hdig
               | apply Forall_nil | lia ].
  - destruct (microsecond d =? 0);
      repeat first [ apply Forall_cons | apply Hdig | apply Forall_nil | lia ].
  - unfold format_offset. destruct (utcoffset d) as [off|]; [|constructor].
    cbv zeta.
    repeat first [ apply Forall_app; split | apply Forall_cons | apply Hdig
                 | apply Forall_nil | lia ].
    + destruct (off <? 0)%Z; lia.
    + repeat match goal with
        | |- Forall _ (if ?b then _ else _) => destruct b
        | _ => first [ apply Forall_app; split | apply Forall_cons | apply Hdig
                     | apply Forall_nil | lia ]
        end.
Qed.

Close Scope N_scope.

(** ** The decode pipeline *)

(** C7: on a stream that closes having produced nothing but "not ready"
    markers (possibly none at all), [decode_line] forwards the markers and
    raises [EOFError], which is not a [DecodingError]; [decode_block]
    forwards the same markers, swallows the [EOFError] and returns. *)
Theorem exhausted_stream_eof stream decoders default :
  only_pending stream ->
  decode_line stream decoders default = mkRun stream (Raised EOFError) []
  /\ (forall msg, EOFError <> DecodingError msg)
  /\ decode_block stream decoders default = Some (mkRun stream Returned []).
Proof.
  intros H. split; [now apply decode_line_only_pending|].
  split; [discriminate|].
  rewrite decode_block_unfold.
  rewrite (decode_line_only_pending stream decoders (Some raise_decoding_error) H).
  reflexivity.
Qed.

Lemma exhausted_stream_eof_witness :
  only_pending [Pending; Pending]
  /\ decode_line [Pending; Pending] None None
     = mkRun [Pending; Pending] (Raised EOFError) []
  /\ decode_block [Pending; Pending] None None
     = Some (mkRun [Pending; Pending] Returned []).
Proof.
  assert (H : only_pending [Pending; Pending]) by (repeat constructor).
  split; [exact H|].
  destruct (exhausted_stream_eof [Pending; Pending] None None H) as (H1 & _ & H2).
  split; assumption.
Defined.

(** C4: for an annotated line [k!a] whose annotation belongs to no
    synonym set of the decode table, the fallback decides: the raising
    fallback fails with the [DecodingError] that names [a], no fallback
    gives [(k, (a, raw))], and any fallback [f] gives [(k, f(a, raw))], an
    exception of [f] being raised as it is. *)
Theorem unknown_annotation_fallback k a raw rest decoders :
  contains bang k = false ->
  unknown a decoders ->
  let stream := KeyValue (k ++ bang :: a) raw :: rest in
  decode_line stream (Some decoders) (Some raise_decoding_error)
  = raise (DecodingError (str_of "unrecognized annotation: " ++ a)) rest
  /\ decode_line stream (Some decoders) None
     = yield_return (KeyValue k (VTuple [VStr a; raw])) rest
  /\ forall f,
       decode_line stream (Some decoders) (Some f)
       = match f a raw with
         | Ok v => yield_return (KeyValue k v) rest
         | Err e => raise e rest
         end.
Proof.
  intros Hk Ha stream. subst stream.
  repeat split; intros; rewrite (decode_line_annotated k a raw rest _ _ Hk);
    unfold converted; rewrite (lookup_unknown a decoders Ha); reflexivity.
Qed.

Lemma unknown_annotation_fallback_witness :
  let stream := [KeyValue (str_of "x!Q") (VBytes (bytes_of "z"))] in
  decode_line stream (Some []) (Some raise_decoding_error)
  = raise (DecodingError (str_of "unrecognized annotation: Q")) []
  /\ decode_line stream (Some []) None
     = yield_return (KeyValue (str_of "x")
                       (VTuple [VStr (str_of "Q"); VBytes (bytes_of "z")])) [].
Proof.
  assert (Hk : contains bang (str_of "x") = false) by reflexivity.
  assert (Ha : unknown (str_of "Q") []) by (intros ? ? []).
  destruct (unknown_annotation_fallback (str_of "x") (str_of "Q")
              (VBytes (bytes_of "z")) [] [] Hk Ha) as (H1 & H2 & _).
  split; [exact H1 | exact H2].
Defined.

(** C5: with the decode table disabled, an annotated line [k!a] gives
    [(k, (a, raw))] whatever the fallback is, the raising one included:
    the fallback is not consulted and no [DecodingError] is raised. *)
Theorem disabled_table_passthrough k a raw rest default :
  contains bang k = false ->
  decode_line (KeyValue (k ++ bang :: a) raw :: rest) None default
  = yield_return (KeyValue k (VTuple [VStr a; raw])) rest
  /\ (forall msg,
        ended (decode_line (KeyValue (k ++ bang :: a) raw :: rest) None default)
        <> Raised (DecodingError msg)).
Proof.
  intros Hk. rewrite (decode_line_annotated k a raw rest None default Hk).
  split; [reflexivity | discriminate].
Qed.

Lemma disabled_table_passthrough_witness :
  decode_line [KeyValue (str_of "x!I") (VBytes (bytes_of "1"))] None
    (Some raise_decoding_error)
  = yield_return (KeyValue (str_of "x")
                    (VTuple [VStr (str_of "I"); VBytes (bytes_of "1")])) [].
Proof.
  assert (Hk : contains bang (str_of "x") = false) by reflexivity.
  exact (proj1 (disabled_table_passthrough (str_of "x") (str_of "I")
                  (VBytes (bytes_of "1")) [] (Some raise_decoding_error) Hk)).
Defined.

(** C6, as the code has it: after [n] "not ready" markers, which
    [decode_line] forwards first and in order, a terminator or an
    unannotated pair is yielded as it is and an annotated pair [k!a] is
    yielded as [(k, converted value)], each as the one real record before
    the generator stops; when the conversion raises, the error comes after
    the [n] markers and no real record is yielded. *)
Theorem markers_then_record n decoders default :
  decode_line (repeat Pending n ++ [Blank]) decoders default
  = mkRun (repeat Pending n ++ [Blank]) Returned []
  /\ (forall key raw,
        contains bang key = false ->
        decode_line (repeat Pending n ++ [KeyValue key raw]) decoders default
        = mkRun (repeat Pending n ++ [KeyValue key raw]) Returned [])
  /\ (forall k a raw,
        contains bang k = false ->
        decode_line (repeat Pending n ++ [KeyValue (k ++ bang :: a) raw])
          decoders default
        = match converted a raw decoders default with
          | Ok v => mkRun (repeat Pending n ++ [KeyValue k v]) Returned []
          | Err e => mkRun (repeat Pending n) (Raised e) []
          end).
Proof.
  pose proof (only_pending_repeat n) as Hn.
  repeat split; intros; rewrite (decode_line_markers _ _ decoders default Hn).
  - reflexivity.
  - rewrite decode_line_plain by assumption. reflexivity.
  - rewrite decode_line_annotated by assumption.
    destruct (converted a raw decoders default); unfold emits; simpl;
      [reflexivity | now rewrite app_nil_r].
Qed.

Lemma markers_then_record_witness :
  decode_line [Pending; Pending; KeyValue (str_of "x") (VBytes (bytes_of "1"))]
    (Some []) (Some raise_decoding_error)
  = mkRun [Pending; Pending; KeyValue (str_of "x") (VBytes (bytes_of "1"))]
      Returned []
  /\ decode_line [Pending; Pending; KeyValue (str_of "x!Q") (VBytes (bytes_of "z"))]
       (Some []) (Some raise_decoding_error)
     = mkRun [Pending; Pending]
         (Raised (DecodingError (str_of "unrecognized annotation: Q"))) [].
Proof.
  destruct (markers_then_record 2 (Some []) (Some raise_decoding_error))
    as (_ & H2 & H3).
  split.
  - exact (H2 (str_of "x") (VBytes (bytes_of "1")) eq_refl).
  - exact (H3 (str_of "x") (str_of "Q") (VBytes (bytes_of "z")) eq_refl).
Defined.

(** C6 as stated fails: after one marker, the line [x!Q] under an empty
    table and the raising fallback yields the marker and then raises
    [DecodingError]; no real record is yielded. *)
Lemma markers_then_error :
  ~ one_record_after_markers 1
      (KeyValue (str_of "x!Q") (VBytes (bytes_of "z")))
      (Some []) (Some raise_decoding_error).
Proof.
  intros (r & _ & H). vm_compute in H. discriminate H.
Qed.




Section DefaultTables.

Context {builtins : Builtins}.

(** C1, at the failing input: on the stream of the one line
    [('x!Q', b'z')], with the default table and no fallback, [decode_line]
    yields [('x', ('Q', b'z'))] while [decode_block] raises the
    [DecodingError] of the raising fallback; on every stream
    [decode_block] runs as with the raising fallback, whatever fallback
    it is given. *)
Theorem decode_block_drops_fallback :
  let stream := [KeyValue (str_of "x!Q") (VBytes (bytes_of "z"))] in
  decode_line stream (Some DECODERS) None
  = yield_return (KeyValue (str_of "x")
                    (VTuple [VStr (str_of "Q"); VBytes (bytes_of "z")])) []
  /\ decode_block stream (Some DECODERS) None
     = Some (raise (DecodingError (str_of "unrecognized annotation: Q")) [])
  /\ forall other_stream decoders default,
       decode_block other_stream decoders default
       = decode_block other_stream decoders (Some raise_decoding_error).
Proof. repeat split. Qed.

End DefaultTables.

(** ** The encode pipeline *)

Section EncodeLine.

Context {builtins : Builtins}.

Lemma ensure_encoded_bytes annotation value :
  ensure_encoded annotation value
  = if is_bytes value then Ok value else Err (EncodingError value annotation).
Proof. destruct value; reflexivity. Qed.

(** [encode_line] on a record, as the conversion by the table followed by
    the handler, the final check and the suffix of the key. *)
Lemma encode_line_steps key value encoders default types :
  encode_line (KeyValue key value) encoders default types
  = '(annotation, value) <- table_conversion value encoders types ;;
    value <- default annotation value ;;
    if is_bytes value then Ok (KeyValue (annotated_key_of key annotation) value)
    else Err (EncodingError value annotation).
Proof.
  unfold encode_line, table_conversion, annotated_key_of.
  set (enc := match encoders with Some e => e | None => [] end).
  set (ty := match types with Some t => t | None => [] end).
  destruct (match value with
            | VTuple [annotation; value0] => Ok (annotation, value0)
            | VTuple _ => Err ValueError
            | _ => Ok (VNone, value)
            end) as [[a v]|e]; cbn [bind]; [|reflexivity].
  set (ann := if is_none a then infer ty v else a).
  destruct (lookup ann enc) as [encode|]; cbn [bind].
  - destruct (encode v) as [v'|e]; cbn [bind]; [|reflexivity].
    destruct (default ann v') as [v''|e]; cbn [bind]; [|reflexivity].
    rewrite ensure_encoded_bytes. now destruct (is_bytes v'').
  - destruct (default ann v) as [v''|e]; cbn [bind]; [|reflexivity].
    rewrite ensure_encoded_bytes. now destruct (is_bytes v'').
Qed.


(** C9: with the default handler, [encode_line] on a record raises
    [EncodingError] when the value after the table-conversion step is not
    [bytes], returns the record of that value when it is, and raises the
    error of the conversion when that step itself fails. With any handler,
    a result of the handler that is not [bytes] raises [EncodingError] at
    the final check, so the value of a record that [encode_line] returns
    is always [bytes]. *)
Theorem encoding_error_iff_not_bytes key value encoders types :
  encode_line (KeyValue key value) encoders ensure_encoded types
  = match table_conversion value encoders types with
    | Ok (annotation, VBytes b) =>
        Ok (KeyValue (annotated_key_of key annotation) (VBytes b))
    | Ok (annotation, converted_value) =>
        Err (EncodingError converted_value annotation)
    | Err e => Err e
    end
  /\ (forall default annotation converted_value handled,
        table_conversion value encoders types = Ok (annotation, converted_value) ->
        default annotation converted_value = Ok handled ->
        is_bytes handled = false ->
        encode_line (KeyValue key value) encoders default types
        = Err (EncodingError handled annotation))
  /\ (forall default key' payload,
        encode_line (KeyValue key value) encoders default types
        = Ok (KeyValue key' payload) ->
        exists b, payload = VBytes b)
  /\ ((forall e, table_conversion value encoders types = Err e ->
                 forall v a, e <> EncodingError v a) ->
      ((exists v a,
          encode_line (KeyValue key value) encoders ensure_encoded types
          = Err (EncodingError v a))
       <-> (exists a v,
              table_conversion value encoders types = Ok (a, v)
              /\ is_bytes v = false))).
Proof.
  split; [|split; [|split]].
  - rewrite encode_line_steps.
    destruct (table_conversion value encoders types) as [[a v]|e];
      cbn [bind]; [|reflexivity].
    destruct v; reflexivity.
  - intros default a v h Hconv Hdef Hh.
    rewrite encode_line_steps, Hconv. cbn [bind]. rewrite Hdef. cbn [bind].
    now rewrite Hh.
  - intros default key' payload. rewrite encode_line_steps.
    destruct (table_conversion value encoders types) as [[a v]|e];
      cbn [bind]; [|discriminate].
    destruct (default a v) as [h|e]; cbn [bind]; [|discriminate].
    destruct h; cbn [is_bytes]; try discriminate.
    intros H. injection H as _ <-. eauto.
  - intros Hclean. rewrite encode_line_steps.
    destruct (table_conversion value encoders types) as [[a v]|e] eqn:Hconv;
      cbn [bind].
    + rewrite ensure_encoded_bytes.
      destruct (is_bytes v) eqn:Hv; cbn [bind]; [rewrite Hv|]; split.
      * intros (v' & a' & H). discriminate H.
      * intros (a' & v' & H & Hv'). injection H as <- <-. congruence.
      * intros _. eauto.
      * intros _. eauto.
    + split.
      * intros (v' & a' & H). injection H as ->.
        exfalso. exact (Hclean _ eq_refl v' a' eq_refl).
      * intros (a' & v' & H & _). discriminate H.
Qed.

(** C10: a 2-tuple [(a, b)] in the place of the value is always taken as
    an explicit pair: [b] alone goes through the table, the handler and
    the final check. When [a] is not [None] it is the annotation, the key
    becomes [k!a] and no type table takes part; when [a] is [None] the
    annotation is inferred from the type of [b], as for the bare value
    [b] when that is not itself a tuple. *)
Theorem tuple_is_explicit_pair k a b encoders default types :
  (is_none a = false ->
     encode_line (KeyValue k (VTuple [a; b])) encoders default types
     = encode_annotated k a b encoders default
     /\ annotated_key_of k a = k ++ bang :: format_value a)
  /\ (is_none a = true ->
        encode_line (KeyValue k (VTuple [a; b])) encoders default types
        = encode_annotated k
            (infer (match types with Some t => t | None => [] end) b) b
            encoders default)
  /\ (isinstance b TTuple = false ->
        encode_line (KeyValue k b) encoders default types
        = encode_line (KeyValue k (VTuple [VNone; b])) encoders default types).
Proof.
  split; [|split].
  - intros Ha. destruct a; try discriminate Ha; split; reflexivity.
  - intros Ha. destruct a; try discriminate Ha. reflexivity.
  - intros Hb. destruct b; try reflexivity. discriminate Hb.
Qed.

End EncodeLine.

(** ** Round trip *)

Section RoundTripProofs.

Context {builtins : Builtins}.

(** A bare value whose type has an annotation that the table converts to
    [bytes]. *)
Lemma encode_line_inferred k v a encode b encoders types :
  isinstance v TTuple = false ->
  infer types v = VStr a ->
  lookup (VStr a) encoders = Some encode ->
  encode v = Ok (VBytes b) ->
  encode_line (KeyValue k v) (Some encoders) ensure_encoded (Some types)
  = Ok (KeyValue (k ++ bang :: a) (VBytes b)).
Proof.
  intros Hv Hinfer Hlookup Hencode.
  destruct v; try discriminate Hv;
    unfold encode_line; cbn [bind is_none]; rewrite Hinfer;
    cbn [is_none]; rewrite Hlookup, Hencode; reflexivity.
Qed.

(** An annotated line whose annotation the table converts. *)
Lemma decode_line_converted k a raw decode v decoders default :
  contains bang k = false ->
  lookup (VStr a) decoders = Some decode ->
  decode raw = Ok v ->
  decode_line [KeyValue (k ++ bang :: a) raw] (Some decoders) default
  = yield_return (KeyValue k v) [].
Proof.
  intros Hk Hlookup Hdecode.
  rewrite (decode_line_annotated k a raw [] (Some decoders) default Hk).
  unfold converted. rewrite Hlookup, Hdecode. reflexivity.
Qed.

Lemma utf8_ascii_round_trip s :
  Forall (fun c => (c < 0x80)%N) s ->
  utf8_encode s = Ok (map byte_of s)
  /\ utf8_decode (map byte_of s) = Ok s
  /\ map Byte.to_N (map byte_of s) = s.
Proof.
  intros H. pose proof (utf8_encode_ascii s H) as He.
  split; [exact He|]. split; [now apply utf8_decode_encode|].
  now apply map_to_N_byte_of.
Qed.


(** The same for ASCII text under the explicit annotation [A], which no
    type infers. *)
Lemma explicit_ascii_round_trip k s :
  contains bang k = false ->
  Forall (fun c => (c < 0x80)%N) s ->
  exists l,
    encode_line (KeyValue k (VTuple [VStr (str_of "A"); VStr s]))
      (Some ENCODERS) ensure_encoded (Some TYPES) = Ok l
    /\ decode_line [l] (Some DECODERS) (Some raise_decoding_error)
       = yield_return (KeyValue k (VStr s)) [].
Proof.
  intros Hk Hs. destruct (ascii_encode_ascii s Hs) as [b He].
  exists (KeyValue (k ++ bang :: str_of "A") (VBytes b)). split.
  - unfold encode_line. cbn [bind is_none].
    change (lookup (VStr (str_of "A")) ENCODERS)
      with (Some (fun v => b <- py_encode ascii_encode v ;; Ok (VBytes b))).
    cbn [py_encode bind]. rewrite He. reflexivity.
  - eapply decode_line_converted; [exact Hk | reflexivity |].
    cbn [py_decode bind]. rewrite (ascii_decode_encode s b He). reflexivity.
Qed.

End RoundTripProofs.

(** ** The statements at sample inputs *)

Section Samples.

#[local] Existing Instance sample_builtins.


Lemma encoding_error_iff_not_bytes_witness :
  let record := KeyValue (str_of "x") (VInt 1) in
  encode_line (builtins := sample_builtins) record (Some ENCODERS)
    (fun _ _ => Ok (VInt 0)) (Some TYPES)
  = Err (EncodingError (VInt 0) (VStr (str_of "I")))
  /\ exists b,
       encode_line (builtins := sample_builtins) record (Some ENCODERS)
         ensure_encoded (Some TYPES)
       = Ok (KeyValue (str_of "x!I") (VBytes b)).
Proof.
  intros record.
  destruct (encoding_error_iff_not_bytes (builtins := sample_builtins)
              (str_of "x") (VInt 1) (Some ENCODERS) (Some TYPES))
    as (H1 & H2 & H3).
  split.
  - exact (H2 (fun _ _ => Ok (VInt 0)) (VStr (str_of "I"))
              (VBytes (bytes_of "1")) (VInt 0) eq_refl eq_refl eq_refl).
  - exists (bytes_of "1"). exact H1.
Defined.

Lemma tuple_is_explicit_pair_witness :
  encode_line (builtins := sample_builtins)
    (KeyValue (str_of "x") (VTuple [VStr (str_of "F"); VBytes (bytes_of "1e0")]))
    None ensure_encoded (Some TYPES)
  = Ok (KeyValue (str_of "x!F") (VBytes (bytes_of "1e0")))
  /\ encode_line (builtins := sample_builtins)
       (KeyValue (str_of "x") (VTuple [VNone; VInt 1]))
       (Some ENCODERS) ensure_encoded (Some TYPES)
     = Ok (KeyValue (str_of "x!I") (VBytes (bytes_of "1"))).
Proof.
  split.
  - destruct (tuple_is_explicit_pair (builtins := sample_builtins)
                (str_of "x") (VStr (str_of "F")) (VBytes (bytes_of "1e0"))
                None ensure_encoded (Some TYPES)) as (H & _).
    exact (proj1 (H eq_refl)).
  - destruct (tuple_is_explicit_pair (builtins := sample_builtins)
                (str_of "x") VNone (VInt 1)
                (Some ENCODERS) ensure_encoded (Some TYPES)) as (_ & H & _).
    exact (H eq_refl).
Defined.

(** The examples of the docstrings. *)

Example encode_int :
  encode_line (builtins := sample_builtins) (KeyValue (str_of "x") (VInt 1))
    (Some ENCODERS) ensure_encoded (Some TYPES)
  = Ok (KeyValue (str_of "x!I") (VBytes (bytes_of "1"))).
Proof. reflexivity. Qed.

Example encode_float :
  encode_line (builtins := sample_builtins)
    (KeyValue (str_of "x") (VFloat 0x1.91eb851eb851fp+1))
    (Some ENCODERS) ensure_encoded (Some TYPES)
  = Ok (KeyValue (str_of "x!F") (VBytes (bytes_of "3.14"))).
Proof. reflexivity. Qed.

Example encode_unicode :
  encode_line (builtins := sample_builtins) (KeyValue (str_of "x") (VStr [960%N]))
    (Some ENCODERS) ensure_encoded (Some TYPES)
  = Ok (KeyValue (str_of "x!U") (VBytes [xcf; x80])).
Proof. reflexivity. Qed.

Example encode_datetime :
  encode_line (builtins := sample_builtins)
    (KeyValue (str_of "x") (VTime (mkDatetime 1234 1 2 0 0 0 0 None)))
    (Some ENCODERS) ensure_encoded (Some TYPES)
  = Ok (KeyValue (str_of "x!T") (VBytes (bytes_of "1234-01-02T00:00:00"))).
Proof. reflexivity. Qed.

Example encode_explicit_float :
  encode_line (builtins := sample_builtins)
    (KeyValue (str_of "x") (VTuple [VStr (str_of "F"); VInt 1]))
    (Some ENCODERS) ensure_encoded (Some TYPES)
  = Ok (KeyValue (str_of "x!F") (VBytes (bytes_of "1.0"))).
Proof. reflexivity. Qed.

Example encode_bytes :
  encode_line (builtins := sample_builtins)
    (KeyValue (str_of "x") (VBytes (bytes_of "data")))
    (Some ENCODERS) ensure_encoded (Some TYPES)
  = Ok (KeyValue (str_of "x") (VBytes (bytes_of "data"))).
Proof. reflexivity. Qed.

Example decode_long_form :
  decode_line (KeyValue (str_of "x!Int") (VBytes (bytes_of "1")) :: [])
    (Some (DECODERS (builtins := sample_builtins))) (Some raise_decoding_error)
  = yield_return (KeyValue (str_of "x") (VInt 1)) [].
Proof. reflexivity. Qed.

Example decode_time :
  decode_line
    (KeyValue (str_of "!T") (VBytes (bytes_of "1234-01-02T04:05:06.789-05:00")) :: [])
    (Some (DECODERS (builtins := sample_builtins))) (Some raise_decoding_error)
  = yield_return
      (KeyValue []
         (VTime (mkDatetime 1234 1 2 4 5 6 789000 (Some (-18000000000)%Z)))) [].
Proof. reflexivity. Qed.

Example decode_nonblocking :
  decode_line [Pending; Pending; KeyValue (str_of "x") (VBytes (bytes_of "1"))]
    (Some (DECODERS (builtins := sample_builtins))) (Some raise_decoding_error)
  = mkRun [Pending; Pending; KeyValue (str_of "x") (VBytes (bytes_of "1"))]
      Returned [].
Proof. reflexivity. Qed.

(** [encode_block] hands its handler on to [encode_line]. *)
Example encode_block_custom_handler :
  encode_block (builtins := sample_builtins)
    [KeyValue (str_of "x") (VInt 1); Blank] (Some [])
    (fun _ v => match v with
                | VInt z => b <- utf8_encode (str_of_int z) ;; Ok (VBytes b)
                | _ => Ok v
                end)
    (Some TYPES)
  = mkRun [KeyValue (str_of "x!I") (VBytes (bytes_of "1")); Blank] Returned [].
Proof. reflexivity. Qed.

End Samples.

(** * Further properties *)

(** ** Reading the stream *)

(** A line that is not a marker is decoded as if alone; what follows it
    stays in the stream. *)
Lemma decode_line_head l rest decoders default :
  l <> Pending ->
  decode_line (l :: rest) decoders default
  = mkRun (yielded (decode_line [l] decoders default))
          (ended (decode_line [l] decoders default)) rest.
Proof.
  intros Hl. destruct l as [| |key raw]; [congruence | reflexivity |].
  cbn [decode_line].
  destruct (negb (contains bang key)); [reflexivity|].
  destruct (split_once bang key) as [|k [|a [|? ?]]]; try reflexivity.
  destruct decoders as [t|]; [|reflexivity].
  destruct (lookup (VStr a) t) as [decode|].
  - destruct (decode raw); reflexivity.
  - destruct default as [f|]; [|reflexivity]. destruct (f a raw); reflexivity.
Qed.

(** A line that is not a marker gives one record that is not a marker,
    or an error and no record. *)
Lemma decode_line_single l decoders default :
  l <> Pending ->
  (exists x, x <> Pending
             /\ decode_line [l] decoders default = yield_return x [])
  \/ (exists e, decode_line [l] decoders default = raise e []).
Proof.
  intros Hl. destruct l as [| |key raw]; [congruence | left | ].
  - exists Blank. split; [discriminate | reflexivity].
  - destruct (contains bang key) eqn:Hkey.
    + destruct (annotated_key key Hkey) as (k & a & -> & Hk).
      rewrite (decode_line_annotated k a raw [] decoders default Hk).
      destruct (converted a raw decoders default) as [v|e].
      * left. exists (KeyValue k v). split; [discriminate | reflexivity].
      * right. exists e. reflexivity.
    + left. exists (KeyValue key raw). split; [discriminate|].
      apply decode_line_plain. exact Hkey.
Qed.

(** X1: [decode_line] reads the stream no further than the first line
    that is not a marker. After the markers [pre] and the line [l], it
    has yielded the markers and then either one record, returning, or
    nothing more, raising; in both cases the lines [rest] after [l] are
    left in the stream. *)
Theorem decode_line_reads_one_line pre l rest decoders default :
  only_pending pre ->
  l <> Pending ->
  remaining (decode_line (pre ++ l :: rest) decoders default) = rest
  /\ ((exists x, x <> Pending
                 /\ yielded (decode_line (pre ++ l :: rest) decoders default)
                    = pre ++ [x]
                 /\ ended (decode_line (pre ++ l :: rest) decoders default)
                    = Returned)
      \/ (exists e, yielded (decode_line (pre ++ l :: rest) decoders default) = pre
                    /\ ended (decode_line (pre ++ l :: rest) decoders default)
                       = Raised e)).
Proof.
  intros Hpre Hl.
  rewrite (decode_line_markers pre (l :: rest) decoders default Hpre).
  rewrite (decode_line_head l rest decoders default Hl).
  cbn [emits remaining yielded ended]. split; [reflexivity|].
  destruct (decode_line_single l decoders default Hl) as [(x & Hx & ->)|(e & ->)].
  - left. exists x. repeat split; assumption || reflexivity.
  - right. exists e. cbn [raise yielded ended]. now rewrite app_nil_r.
Qed.

Lemma decode_line_reads_one_line_witness :
  remaining
    (decode_line [Pending; KeyValue (str_of "x!Q") (VBytes (bytes_of "z")); Blank]
       (Some []) (Some raise_decoding_error))
  = [Blank].
Proof.
  assert (Hpre : only_pending [Pending]) by (repeat constructor).
  assert (Hl : KeyValue (str_of "x!Q") (VBytes (bytes_of "z")) <> Pending)
    by discriminate.
  exact (proj1 (decode_line_reads_one_line [Pending]
                  (KeyValue (str_of "x!Q") (VBytes (bytes_of "z"))) [Blank]
                  (Some []) (Some raise_decoding_error) Hpre Hl)).
Defined.

(** ** Keys *)

Lemma plain_keys_app xs ys : plain_keys xs -> plain_keys ys -> plain_keys (xs ++ ys).
Proof. intros Hx Hy. apply Forall_app. split; assumption. Qed.

Lemma decode_line_plain_keys stream decoders default :
  plain_keys (yielded (decode_line stream decoders default)).
Proof.
  induction stream as [|l stream IH]; [constructor|].
  destruct l as [| |key raw].
  - cbn [decode_line emit yielded]. constructor; [exact I | exact IH].
  - repeat constructor.
  - destruct (contains bang key) eqn:Hkey.
    + destruct (annotated_key key Hkey) as (k & a & -> & Hk).
      rewrite (decode_line_annotated k a raw stream decoders default Hk).
      destruct (converted a raw decoders default); repeat constructor.
      exact Hk.
    + rewrite (decode_line_plain key raw stream decoders default Hkey).
      repeat constructor. exact Hkey.
Qed.

Lemma decode_block_loop_plain_keys fuel stream decoders r :
  decode_block_loop fuel stream decoders = Some r -> plain_keys (yielded r).
Proof.
  revert stream r. induction fuel as [|fuel IH]; intros stream r; [discriminate|].
  cbn [decode_block_loop].
  pose proof (decode_line_plain_keys stream decoders (Some raise_decoding_error))
    as Hline.
  destruct (ended (decode_line stream decoders (Some raise_decoding_error))).
  - destruct (decode_block_loop fuel _ decoders) as [r'|] eqn:E; [|discriminate].
    intros H. apply Some_inj in H. subst r. cbn [emits yielded].
    apply plain_keys_app; [exact Hline | exact (IH _ _ E)].
  - destruct e; intros H; apply Some_inj in H; subst r; exact Hline.
Qed.

(** X2: no key that [decode_line] or [decode_block] yields holds a
    ['!']: the key of an annotated line is cut at its first ['!'], and a
    key that is yielded whole has none. *)
Theorem yielded_keys_are_plain stream decoders default :
  plain_keys (yielded (decode_line stream decoders default))
  /\ forall r, decode_block stream decoders default = Some r ->
               plain_keys (yielded r).
Proof.
  split; [apply decode_line_plain_keys|].
  intros r. apply decode_block_loop_plain_keys.
Qed.

(** ** Table order *)

Lemma lookup_first_match a before annotations convert after :
  unknown a before ->
  In a annotations ->
  lookup (VStr a) (before ++ (annotations, convert) :: after) = Some convert.
Proof.
  intros Hbefore Hin.
  induction before as [|[anns c] before IH]; cbn [app lookup].
  - apply member_In in Hin. now rewrite Hin.
  - destruct (member (VStr a) anns) eqn:E.
    + apply member_In in E. exfalso.
      apply (Hbefore anns c); [now left | exact E].
    + apply IH. intros anns' c' Hin'. apply (Hbefore anns' c'). now right.
Qed.

Lemma infer_first_match v before ty a after :
  (forall t x, In (t, x) before -> isinstance v t = false) ->
  isinstance v ty = true ->
  infer (before ++ (ty, a) :: after) v = a.
Proof.
  intros Hbefore Hty.
  induction before as [|[t x] before IH]; cbn [app infer].
  - now rewrite Hty.
  - rewrite (Hbefore t x) by now left.
    apply IH. intros t' x' Hin. apply (Hbefore t' x'). now right.
Qed.

(** X3: the first synonym set of the decode table, in table order, that
    holds the annotation decides. Its conversion is applied to the raw
    value, whatever entries come after it (even one that holds the same
    annotation) and whatever the fallback is; an exception of the
    conversion is raised as it is. *)
Theorem decode_first_match_wins k a raw rest before annotations decode after default :
  contains bang k = false ->
  unknown a before ->
  In a annotations ->
  decode_line (KeyValue (k ++ bang :: a) raw :: rest)
    (Some (before ++ (annotations, decode) :: after)) default
  = match decode raw with
    | Ok v => yield_return (KeyValue k v) rest
    | Err e => raise e rest
    end.
Proof.
  intros Hk Hbefore Hin.
  rewrite (decode_line_annotated k a raw rest _ default Hk).
  unfold converted.
  rewrite (lookup_first_match a before annotations decode after Hbefore Hin).
  reflexivity.
Qed.

Lemma decode_first_match_wins_witness :
  decode_line [KeyValue (str_of "x!I") (VBytes (bytes_of "1"))]
    (Some [([str_of "I"], fun v => Ok (VStr (str_of "first")));
           ([str_of "I"], fun v => Ok (VStr (str_of "second")))])
    None
  = yield_return (KeyValue (str_of "x") (VStr (str_of "first"))) [].
Proof.
  assert (Hk : contains bang (str_of "x") = false) by reflexivity.
  assert (Hb : unknown (str_of "I") []) by (intros ? ? []).
  assert (Hin : In (str_of "I") [str_of "I"]) by (left; reflexivity).
  exact (decode_first_match_wins (str_of "x") (str_of "I") (VBytes (bytes_of "1"))
           [] [] [str_of "I"] (fun v => Ok (VStr (str_of "first")))
           [([str_of "I"], fun v => Ok (VStr (str_of "second")))] None Hk Hb Hin).
Defined.

Section ExtraEncode.

Context {builtins : Builtins}.

(** X4: for a bare value, the first class of the type table of which it
    is an instance gives the annotation, and the first synonym set of the
    encode table that holds that annotation gives the conversion: later
    entries of either table play no part. The converted value goes to the
    handler and the final check, and the key gets the annotation. *)
Theorem encode_first_match_wins k v a types_before ty types_after
    encoders_before annotations encode encoders_after default :
  isinstance v TTuple = false ->
  (forall t x, In (t, x) types_before -> isinstance v t = false) ->
  isinstance v ty = true ->
  unknown a encoders_before ->
  In a annotations ->
  encode_line (KeyValue k v)
    (Some (encoders_before ++ (annotations, encode) :: encoders_after))
    default
    (Some (types_before ++ (ty, VStr a) :: types_after))
  = converted_value <- encode v ;;
    handled <- default (VStr a) converted_value ;;
    _ <- ensure_encoded (VStr a) handled ;;
    Ok (KeyValue (k ++ bang :: a) handled).
Proof.
  intros Hv Htypes Hty Henc Hin.
  assert (Hunpack : match v with
                    | VTuple [annotation; value] => Ok (annotation, value)
                    | VTuple _ => Err ValueError
                    | _ => Ok (VNone, v)
                    end = Ok (VNone, v)).
  { destruct v; try reflexivity. discriminate Hv. }
  unfold encode_line. rewrite Hunpack. cbn [bind is_none].
  rewrite (infer_first_match v types_before ty (VStr a) types_after Htypes Hty).
  rewrite (lookup_first_match a encoders_before annotations encode encoders_after
             Henc Hin).
  reflexivity.
Qed.

(** X5: the long name and the short code of a default annotation decode
    alike: for a key [k] without ['!'], the lines [k!long] and [k!short]
    give the same run for every raw value and every fallback. *)
Theorem long_and_short_forms_decode long short k raw rest default :
  In (long, short) synonyms ->
  contains bang k = false ->
  decode_line (KeyValue (k ++ bang :: long) raw :: rest) (Some DECODERS) default
  = decode_line (KeyValue (k ++ bang :: short) raw :: rest) (Some DECODERS) default.
Proof.
  intros Hin Hk.
  rewrite (decode_line_annotated k long raw rest _ default Hk).
  rewrite (decode_line_annotated k short raw rest _ default Hk).
  unfold synonyms in Hin. cbn [In] in Hin.
  repeat (destruct Hin as [Hin|Hin]; [apply pair_equal_spec in Hin as [<- <-];
                                      reflexivity|]).
  contradiction.
Qed.

(** X6: the long name and the short code of a default annotation, given
    explicitly, encode alike: the value is converted to the same bytes,
    or fails with the same error, and the key gets the annotation as it
    was given, [k!long] or [k!short]. *)
Theorem long_and_short_forms_encode long short k v types :
  In (long, short) synonyms ->
  exists converted_value : result bytes,
    encode_line (KeyValue k (VTuple [VStr long; v]))
      (Some ENCODERS) ensure_encoded types
    = (b <- converted_value ;; Ok (KeyValue (k ++ bang :: long) (VBytes b)))
    /\ encode_line (KeyValue k (VTuple [VStr short; v]))
         (Some ENCODERS) ensure_encoded types
       = (b <- converted_value ;; Ok (KeyValue (k ++ bang :: short) (VBytes b))).
Proof.
  intros Hin. unfold synonyms in Hin. cbn [In] in Hin.
  unfold encode_line. cbn [bind is_none].
  destruct Hin as [Hin|[Hin|[Hin|[Hin|[Hin|[]]]]]];
    apply pair_equal_spec in Hin as [<- <-].
  - exists (z <- py_int v ;; utf8_encode (str_of_int z)).
    change (lookup (VStr (str_of "Int")) ENCODERS)
      with (Some (fun v => z <- py_int v ;;
                           b <- utf8_encode (str_of_int z) ;; Ok (VBytes b))).
    change (lookup (VStr (str_of "I")) ENCODERS)
      with (Some (fun v => z <- py_int v ;;
                           b <- utf8_encode (str_of_int z) ;; Ok (VBytes b))).
    cbv beta iota. destruct (py_int v) as [z|e]; cbn [bind]; [|split; reflexivity].
    destruct (utf8_encode (str_of_int z)); split; reflexivity.
  - exists (x <- py_float v ;; utf8_encode (str_of_float x)).
    change (lookup (VStr (str_of "Float")) ENCODERS)
      with (Some (fun v => x <- py_float v ;;
                           b <- utf8_encode (str_of_float x) ;; Ok (VBytes b))).
    change (lookup (VStr (str_of "F")) ENCODERS)
      with (Some (fun v => x <- py_float v ;;
                           b <- utf8_encode (str_of_float x) ;; Ok (VBytes b))).
    cbv beta iota. destruct (py_float v) as [x|e]; cbn [bind]; [|split; reflexivity].
    destruct (utf8_encode (str_of_float x)); split; reflexivity.
  - exists (py_encode utf8_encode v).
    change (lookup (VStr (str_of "Unicode")) ENCODERS)
      with (Some (fun v => b <- py_encode utf8_encode v ;; Ok (VBytes b))).
    change (lookup (VStr (str_of "U")) ENCODERS)
      with (Some (fun v => b <- py_encode utf8_encode v ;; Ok (VBytes b))).
    cbv beta iota. destruct (py_encode utf8_encode v); split; reflexivity.
  - exists (py_encode ascii_encode v).
    change (lookup (VStr (str_of "ASCII")) ENCODERS)
      with (Some (fun v => b <- py_encode ascii_encode v ;; Ok (VBytes b))).
    change (lookup (VStr (str_of "A")) ENCODERS)
      with (Some (fun v => b <- py_encode ascii_encode v ;; Ok (VBytes b))).
    cbv beta iota. destruct (py_encode ascii_encode v); split; reflexivity.
  - exists (s <- py_isoformat v ;; utf8_encode s).
    change (lookup (VStr (str_of "Time")) ENCODERS)
      with (Some (fun v => s <- py_isoformat v ;;
                           b <- utf8_encode s ;; Ok (VBytes b))).
    change (lookup (VStr (str_of "T")) ENCODERS)
      with (Some (fun v => s <- py_isoformat v ;;
                           b <- utf8_encode s ;; Ok (VBytes b))).
    cbv beta iota. destruct (py_isoformat v) as [s|e]; cbn [bind]; [|split; reflexivity].
    destruct (utf8_encode s); split; reflexivity.
Qed.

End ExtraEncode.

(** ** Round trips of single records *)

Section ExtraRoundTrip.

Context {builtins : Builtins}.





Lemma contains_app c xs ys :
  contains c (xs ++ ys) = contains c xs || contains c ys.
Proof. unfold contains. apply existsb_app. Qed.

(** X9: a key that holds a ['!'] does not survive the two pipelines.
    [encode_line] writes the key as it is, a ['!'] of its own included,
    and no run of [decode_line] on the line it gives, whatever the tables
    and the fallback, yields a record under that key: the line is read as
    annotated at the first ['!']. *)
Theorem bang_key_is_not_preserved k value encoders handler types l decoders default :
  contains bang k = true ->
  encode_line (KeyValue k value) encoders handler types = Ok l ->
  (exists k' payload, l = KeyValue k' payload /\ contains bang k' = true)
  /\ forall v, ~ In (KeyValue k v) (yielded (decode_line [l] decoders default)).
Proof.
  intros Hk Henc. split.
  - rewrite encode_line_steps in Henc.
    destruct (table_conversion value encoders types) as [[a v]|e];
      cbn [bind] in Henc; [|discriminate Henc].
    destruct (handler a v) as [h|e]; cbn [bind] in Henc; [|discriminate Henc].
    destruct (is_bytes h); [|discriminate Henc].
    apply Ok_inj in Henc. subst l.
    exists (annotated_key_of k a), h. split; [reflexivity|].
    unfold annotated_key_of. destruct (is_none a); [exact Hk|].
    rewrite contains_app, Hk. reflexivity.
  - intros v Hin.
    pose proof (decode_line_plain_keys [l] decoders default) as Hplain.
    unfold plain_keys in Hplain. rewrite Forall_forall in Hplain.
    specialize (Hplain _ Hin). cbn in Hplain. congruence.
Qed.

(** X10: with both tables disabled, a tagged raw value goes through
    unchanged. For a key [k] without ['!'], any annotation [a] (empty, or
    with a ['!'] of its own) and any [bytes], [encode_line] with
    [encoders=None] writes [(k, (a, raw))] as the line [(k!a, raw)], and
    [decode_line] with [decoders=None] reads that line back as
    [(k, (a, raw))], whatever the type table and the fallback. *)
Theorem disabled_tables_round_trip k a raw types default :
  contains bang k = false ->
  encode_line (KeyValue k (VTuple [VStr a; VBytes raw])) None ensure_encoded types
  = Ok (KeyValue (k ++ bang :: a) (VBytes raw))
  /\ decode_line [KeyValue (k ++ bang :: a) (VBytes raw)] None default
     = yield_return (KeyValue k (VTuple [VStr a; VBytes raw])) [].
Proof.
  intros Hk. split; [reflexivity|].
  rewrite (decode_line_annotated k a (VBytes raw) [] None default Hk).
  reflexivity.
Qed.

End ExtraRoundTrip.

(** ** Blocks *)

Lemma decode_block_nil decoders default :
  decode_block [] decoders default = Some (mkRun [] Returned []).
Proof. reflexivity. Qed.

(** A marker at the head of the stream is forwarded. *)
Lemma decode_block_marker stream decoders default :
  decode_block (Pending :: stream) decoders default
  = option_map (emit Pending) (decode_block stream decoders default).
Proof.
  rewrite (decode_block_unfold (Pending :: stream)).
  rewrite (decode_block_unfold stream). cbv zeta.
  cbn [decode_line emit ended remaining yielded].
  destruct (decode_line stream decoders (Some raise_decoding_error))
    as [ys [|e] rem]; cbn [ended remaining yielded].
  - destruct (decode_block rem decoders default) as [r'|]; reflexivity.
  - destruct e; reflexivity.
Qed.

(** A line that decodes to a record is forwarded, and the loop goes on. *)
Lemma decode_block_record l x stream decoders default :
  l <> Pending ->
  decode_line [l] decoders (Some raise_decoding_error) = yield_return x [] ->
  decode_block (l :: stream) decoders default
  = option_map (emit x) (decode_block stream decoders default).
Proof.
  intros Hl Hx. rewrite (decode_block_unfold (l :: stream)). cbv zeta.
  rewrite (decode_line_head l stream decoders _ Hl), Hx.
  cbn [yield_return ended remaining yielded].
  destruct (decode_block stream decoders default) as [r'|]; reflexivity.
Qed.

(** A line whose decoding raises ends the loop: [EOFError] is swallowed,
    any other exception goes on to the caller. *)
Lemma decode_block_raise l e stream decoders default :
  l <> Pending ->
  decode_line [l] decoders (Some raise_decoding_error) = raise e [] ->
  decode_block (l :: stream) decoders default
  = Some (mkRun [] match e with EOFError => Returned | _ => Raised e end stream).
Proof.
  intros Hl He. rewrite (decode_block_unfold (l :: stream)). cbv zeta.
  rewrite (decode_line_head l stream decoders _ Hl), He.
  cbn [raise ended remaining yielded]. destruct e; reflexivity.
Qed.

Lemma decode_block_step l x stream decoders default :
  decodes_to decoders l x ->
  decode_block (l :: stream) decoders default
  = option_map (emit x) (decode_block stream decoders default).
Proof.
  intros [[-> ->]|[Hl Hx]].
  - apply decode_block_marker.
  - now apply decode_block_record.
Qed.

Lemma decode_block_decoded stream out decoders default :
  Forall2 (decodes_to decoders) stream out ->
  decode_block stream decoders default = Some (mkRun out Returned []).
Proof.
  induction 1 as [|l x stream out Hl _ IH].
  - apply decode_block_nil.
  - rewrite (decode_block_step l x stream decoders default Hl), IH. reflexivity.
Qed.

Lemma decode_block_stopped pre out l e rest decoders default :
  Forall2 (decodes_to decoders) pre out ->
  decoding_raises decoders l e ->
  decode_block (pre ++ l :: rest) decoders default
  = Some (mkRun out match e with EOFError => Returned | _ => Raised e end rest).
Proof.
  intros Hpre [Hl He].
  induction Hpre as [|l0 x pre out Hl0 _ IH]; cbn [app].
  - now apply decode_block_raise.
  - rewrite (decode_block_step l0 x _ decoders default Hl0), IH. reflexivity.
Qed.

(** X11: when every line of the stream decodes, [decode_block] yields one
    item for each line, in the order of the lines (a marker for a marker,
    its record for any other line, the terminator included), then
    returns with the stream read to its end. *)
Theorem decode_block_line_by_line stream out decoders default :
  Forall2 (decodes_to decoders) stream out ->
  decode_block stream decoders default = Some (mkRun out Returned [])
  /\ List.length out = List.length stream.
Proof.
  intros H. split.
  - now apply decode_block_decoded.
  - symmetry. exact (Forall2_length H).
Qed.

(** X12: the first line whose decoding raises anything but [EOFError]
    ends the block with that exception. The items of the lines before it
    have been yielded, no item is yielded for it, and the lines after it
    are left unread in the stream. *)
Theorem decode_block_first_error pre out l e rest decoders default :
  Forall2 (decodes_to decoders) pre out ->
  decoding_raises decoders l e ->
  e <> EOFError ->
  decode_block (pre ++ l :: rest) decoders default
  = Some (mkRun out (Raised e) rest).
Proof.
  intros Hpre Hl He.
  rewrite (decode_block_stopped pre out l e rest decoders default Hpre Hl).
  destruct e; try reflexivity. congruence.
Qed.

(** X13: an [EOFError] raised by a decoder of the table is taken for the
    end of the stream. [decode_block] returns without an error after the
    items of the lines before, and both the line whose decoder raised
    and the lines after it are dropped from its sequence, the latter
    left unread in the stream. *)
Theorem decode_block_swallows_decoder_eof pre out l rest decoders default :
  Forall2 (decodes_to decoders) pre out ->
  decoding_raises decoders l EOFError ->
  decode_block (pre ++ l :: rest) decoders default
  = Some (mkRun out Returned rest).
Proof.
  intros Hpre Hl.
  exact (decode_block_stopped pre out l EOFError rest decoders default Hpre Hl).
Qed.

Section ExtraBlocks.

Context {builtins : Builtins}.

Lemma encode_block_encoded lines out encoders default types :
  Forall2 (fun l x => encode_line l encoders default types = Ok x) lines out ->
  encode_block lines encoders default types = mkRun out Returned [].
Proof.
  induction 1 as [|l x lines out Hl _ IH]; cbn [encode_block].
  - reflexivity.
  - rewrite Hl, IH. reflexivity.
Qed.

(** X14: [encode_block] is [encode_line] line by line. When every line
    encodes, it yields the encoded lines in order, one for each line,
    markers and terminators included (a terminator does not end the
    block), and returns. The first line that fails ends it with the
    exception of [encode_line], after the lines encoded before, and with
    the lines after it not taken from the input. *)
Theorem encode_block_line_by_line lines out encoders default types :
  Forall2 (fun l x => encode_line l encoders default types = Ok x) lines out ->
  encode_block lines encoders default types = mkRun out Returned []
  /\ forall l e rest,
       encode_line l encoders default types = Err e ->
       encode_block (lines ++ l :: rest) encoders default types
       = mkRun out (Raised e) rest.
Proof.
  intros H. split; [now apply encode_block_encoded|].
  intros l e rest He.
  induction H as [|l0 x lines out Hl0 _ IH]; cbn [app encode_block].
  - rewrite He. reflexivity.
  - rewrite Hl0, IH. reflexivity.
Qed.

(** A record that goes through, with the line it is written as. *)
Lemma record_round_trip k v default :
  contains bang k = false ->
  round_trip_value v ->
  exists l,
    encode_line (KeyValue k v) (Some ENCODERS) ensure_encoded (Some TYPES) = Ok l
    /\ decode_line [l] (Some DECODERS) default = yield_return (KeyValue k v) [].
Proof.
  intros Hk Hv. destruct v as [|z|x|s|b|t|items]; cbn [round_trip_value] in Hv;
    try contradiction.
  - destruct (utf8_ascii_round_trip (str_of_int z) (str_of_int_ascii z))
      as (He & _ & Hn).
    eexists. split.
    + eapply encode_line_inferred; try reflexivity.
      cbn [py_int bind]. rewrite He. reflexivity.
    + eapply decode_line_converted; [exact Hk | reflexivity |].
      cbn [py_int bind]. unfold int_of_bytes.
      rewrite Hn, int_of_text_str_of_int. reflexivity.
  - destruct Hv as (b & He & Hd).
    eexists. split.
    + eapply encode_line_inferred; try reflexivity.
      cbn [py_float bind]. rewrite He. reflexivity.
    + eapply decode_line_converted; [exact Hk | reflexivity |].
      cbn [py_float bind]. rewrite Hd. reflexivity.
  - destruct (utf8_encode_scalar s Hv) as [b He].
    eexists. split.
    + eapply encode_line_inferred; try reflexivity.
      cbn [py_encode bind]. rewrite He. reflexivity.
    + eapply decode_line_converted; [exact Hk | reflexivity |].
      cbn [py_decode bind]. rewrite (utf8_decode_encode s b He). reflexivity.
  - destruct (utf8_ascii_round_trip (isoformat t) (isoformat_ascii t))
      as (He & Hd & _).
    eexists. split.
    + eapply encode_line_inferred; try reflexivity.
      cbn [py_isoformat bind]. rewrite He. reflexivity.
    + eapply decode_line_converted; [exact Hk | reflexivity |].
      cbn [py_decode bind]. rewrite Hd. cbn [bind].
      rewrite (fromisoformat_isoformat t Hv). reflexivity.
Qed.



End ExtraBlocks.

(** ** Errors and edges of the encode and decode of one record *)

Lemma ascii_encode_non_ascii s :
  Exists (fun c => (0x80 <= c)%N) s -> ascii_encode s = Err UnicodeEncodeError.
Proof.
  induction s as [|c s IH]; intros H; [inversion H|].
  cbn [ascii_encode]. destruct (N.ltb_spec c 0x80) as [Hc|Hc]; [|reflexivity].
  inversion H as [? ? Hhead|? ? Htail]; subst; [lia|].
  rewrite (IH Htail). reflexivity.
Qed.

Lemma ascii_decode_non_ascii b :
  Exists (fun x => (0x80 <= Byte.to_N x)%N) b ->
  ascii_decode b = Err UnicodeDecodeError.
Proof.
  induction b as [|x b IH]; intros H; [inversion H|].
  cbn [ascii_decode].
  destruct (N.ltb_spec (Byte.to_N x) 0x80) as [Hx|Hx]; [|reflexivity].
  inversion H as [? ? Hhead|? ? Htail]; subst; [lia|].
  rewrite (IH Htail). reflexivity.
Qed.

Section ExtraErrors.

Context {builtins : Builtins}.

(** X16: the annotation [ASCII]/[A] is strict and its errors are those of
    the codec, unwrapped. Writing a string with a character above 127
    under it raises [UnicodeEncodeError] before any handler is called;
    reading raw bytes with a byte above 127 under it raises
    [UnicodeDecodeError], for every fallback, and leaves the rest of the
    stream in place. *)
Theorem ascii_is_strict a k :
  In a [str_of "ASCII"; str_of "A"] ->
  (forall s default types,
     Exists (fun c => (0x80 <= c)%N) s ->
     encode_line (KeyValue k (VTuple [VStr a; VStr s])) (Some ENCODERS)
       default types
     = Err UnicodeEncodeError)
  /\ (forall raw rest default,
        contains bang k = false ->
        Exists (fun x => (0x80 <= Byte.to_N x)%N) raw ->
        decode_line (KeyValue (k ++ bang :: a) (VBytes raw) :: rest)
          (Some DECODERS) default
        = raise UnicodeDecodeError rest).
Proof.
  intros Ha. split.
  - intros s default types Hs. unfold encode_line. cbn [bind is_none].
    destruct Ha as [<-|[<-|[]]].
    + change (lookup (VStr (str_of "ASCII")) ENCODERS)
        with (Some (fun v => b <- py_encode ascii_encode v ;; Ok (VBytes b))).
      cbv beta iota. cbn [py_encode]. rewrite (ascii_encode_non_ascii s Hs).
      reflexivity.
    + change (lookup (VStr (str_of "A")) ENCODERS)
        with (Some (fun v => b <- py_encode ascii_encode v ;; Ok (VBytes b))).
      cbv beta iota. cbn [py_encode]. rewrite (ascii_encode_non_ascii s Hs).
      reflexivity.
  - intros raw rest default Hk Hraw.
    rewrite (decode_line_annotated k a (VBytes raw) rest _ default Hk).
    unfold converted.
    destruct Ha as [<-|[<-|[]]].
    + change (lookup (VStr (str_of "ASCII")) DECODERS)
        with (Some (fun v => s <- py_decode ascii_decode v ;; Ok (VStr s))).
      cbn [py_decode]. rewrite (ascii_decode_non_ascii raw Hraw). reflexivity.
    + change (lookup (VStr (str_of "A")) DECODERS)
        with (Some (fun v => s <- py_decode ascii_decode v ;; Ok (VStr s))).
      cbn [py_decode]. rewrite (ascii_decode_non_ascii raw Hraw). reflexivity.
Qed.

(** The annotation in force for a bare value is the inferred one. *)
Lemma table_conversion_bare v encoders types a v' :
  isinstance v TTuple = false ->
  table_conversion v encoders types = Ok (a, v') ->
  a = infer (match types with Some t => t | None => [] end) v.
Proof.
  intros Hv. unfold table_conversion.
  assert (Hunpack : match v with
                    | VTuple [annotation; value] => Ok (annotation, value)
                    | VTuple _ => Err ValueError
                    | _ => Ok (VNone, v)
                    end = Ok (VNone, v)).
  { destruct v; try reflexivity. discriminate Hv. }
  rewrite Hunpack. cbn [bind is_none].
  destruct (lookup _ _) as [encode|].
  - destruct (encode v); cbn [bind]; [|discriminate].
    intros H. apply Ok_inj in H. congruence.
  - intros H. apply Ok_inj in H. congruence.
Qed.

(** X17: a line that [encode_line] writes for a bare value with the
    default tables never reaches the fallback of [decode_line]: the
    annotation it carries, if any, was inferred from the type of the
    value and is one the default decode table knows. For a key without
    ['!'], the run of [decode_line] on that line is the same for every
    two fallbacks. *)
Theorem inferred_annotation_is_known k v handler l rest default default' :
  isinstance v TTuple = false ->
  contains bang k = false ->
  encode_line (KeyValue k v) (Some ENCODERS) handler (Some TYPES) = Ok l ->
  decode_line (l :: rest) (Some DECODERS) default
  = decode_line (l :: rest) (Some DECODERS) default'.
Proof.
  intros Hv Hk Henc. rewrite encode_line_steps in Henc.
  destruct (table_conversion v (Some ENCODERS) (Some TYPES)) as [[a v']|e] eqn:Hconv;
    cbn [bind] in Henc; [|discriminate Henc].
  apply (table_conversion_bare v _ _ a v' Hv) in Hconv.
  destruct (handler a v') as [h|e]; cbn [bind] in Henc; [|discriminate Henc].
  destruct (is_bytes h); [|discriminate Henc].
  apply Ok_inj in Henc. subst l a.
  destruct v; try discriminate Hv;
    cbn [infer TYPES isinstance type_of pytype_eqb annotated_key_of is_none
         format_value];
    first [ rewrite !(decode_line_plain k h rest _ _ Hk); reflexivity
          | rewrite !(decode_line_annotated k _ h rest _ _ Hk); reflexivity ].
Qed.

(** X18: a tuple in the place of the value must be a pair. A tuple of any
    other length, the empty one included, raises [ValueError] when it is
    unpacked, before a table or the handler is consulted. *)
Theorem tuple_value_must_be_a_pair k items encoders handler types :
  List.length items <> 2%nat ->
  encode_line (KeyValue k (VTuple items)) encoders handler types = Err ValueError.
Proof.
  intros H. destruct items as [|a [|b [|c items]]]; try reflexivity.
  cbn in H. congruence.
Qed.


End ExtraErrors.

(** ** Order of the default tables *)

Lemma lookup_matching a t :
  lookup (VStr a) t = match matching a t with
                      | [] => None
                      | entry :: _ => Some (snd entry)
                      end.
Proof.
  unfold matching.
  induction t as [|[anns c] t IH]; cbn [lookup filter fst]; [reflexivity|].
  destruct (member (VStr a) anns); [reflexivity | exact IH].
Qed.

Lemma filter_permutation {A} (f : A -> bool) l l' :
  Permutation l l' -> Permutation (filter f l) (filter f l').
Proof.
  induction 1 as [|x l l' _ IH|x y l|l l' l'' _ IH1 _ IH2]; cbn [filter].
  - constructor.
  - destruct (f x); [now constructor | exact IH].
  - destruct (f x), (f y); try apply Permutation_refl. apply perm_swap.
  - exact (Permutation_trans IH1 IH2).
Qed.

(** In a table with disjoint synonym sets, the order of the entries does
    not change what is looked up. *)
Lemma lookup_permutation a t t' :
  disjoint_sets t -> Permutation t t' -> lookup (VStr a) t' = lookup (VStr a) t.
Proof.
  intros Hdis Hperm. rewrite !lookup_matching.
  assert (Hp : Permutation (matching a t) (matching a t')).
  { unfold matching. apply filter_permutation. exact Hperm. }
  specialize (Hdis a).
  destruct (matching a t) as [|e [|e' m]].
  - apply Permutation_nil in Hp. now rewrite Hp.
  - apply Permutation_length_1_inv in Hp. now rewrite Hp.
  - cbn in Hdis. lia.
Qed.

(** [decode_line] uses its table through [lookup] only. *)
Lemma decode_line_same_lookup stream t t' default :
  (forall a, lookup (VStr a) t' = lookup (VStr a) t) ->
  decode_line stream (Some t') default = decode_line stream (Some t) default.
Proof.
  intros H. induction stream as [|l stream IH]; [reflexivity|].
  destruct l as [| |key raw]; cbn [decode_line].
  - now rewrite IH.
  - reflexivity.
  - destruct (negb (contains bang key)); [reflexivity|].
    destruct (split_once bang key) as [|k [|a [|? ?]]]; try reflexivity.
    now rewrite H.
Qed.

Lemma member_two a x y :
  member (VStr a) [x; y] = true -> a = x \/ a = y.
Proof.
  intros H. apply member_In in H. destruct H as [<-|[<-|[]]]; auto.
Qed.

Ltac count_matching :=
  repeat match goal with
    | |- context [member (VStr ?a) [?x; ?y]] =>
        let E := fresh "E" in
        destruct (member (VStr a) [x; y]) eqn:E;
        [ apply member_two in E; destruct E; subst a; cbn | ]
    end;
  cbn [List.length]; lia.

Section ExtraOrder.

Context {builtins : Builtins}.

Lemma DECODERS_disjoint : disjoint_sets DECODERS.
Proof.
  intros a. unfold matching, DECODERS. cbn [filter fst]. count_matching.
Qed.

Lemma ENCODERS_disjoint : disjoint_sets ENCODERS.
Proof.
  intros a. unfold matching, ENCODERS. cbn [filter fst]. count_matching.
Qed.

(** X20: no annotation belongs to two synonym sets of [DECODERS], nor of
    [ENCODERS], so the order of their entries decides nothing: with the
    entries of [DECODERS] in any other order, [decode_line] runs the same
    on every stream, and every annotation finds the same encoder in
    [ENCODERS] reordered. *)
Theorem default_table_order_is_immaterial :
  disjoint_sets DECODERS
  /\ disjoint_sets ENCODERS
  /\ (forall decoders stream default,
        Permutation DECODERS decoders ->
        decode_line stream (Some decoders) default
        = decode_line stream (Some DECODERS) default)
  /\ (forall encoders a,
        Permutation ENCODERS encoders ->
        lookup (VStr a) encoders = lookup (VStr a) ENCODERS).
Proof.
  split; [exact DECODERS_disjoint|]. split; [exact ENCODERS_disjoint|]. split.
  - intros decoders stream default Hperm.
    apply decode_line_same_lookup. intros a.
    apply lookup_permutation; [exact DECODERS_disjoint | exact Hperm].
  - intros encoders a Hperm.
    apply lookup_permutation; [exact ENCODERS_disjoint | exact Hperm].
Qed.

End ExtraOrder.

(** ** Decoded records can be written again *)

Lemma bind_inv {A B} (r : result A) (k : A -> result B) y :
  bind r k = Ok y -> exists x, r = Ok x /\ k x = Ok y.
Proof. destruct r as [x|e]; cbn [bind]; [eauto | discriminate]. Qed.

Lemma bind_cons_inv (r : result pystr) c s :
  (s' <- r ;; Ok (c :: s')) = Ok s -> exists s', r = Ok s' /\ s = c :: s'.
Proof.
  intros H. apply bind_inv in H as (s' & Hr & Hs).
  apply Ok_inj in Hs. eauto.
Qed.

Open Scope N_scope.

Ltac tests_to_props :=
  repeat match goal with
    | H : (_ <? _) = true |- _ => apply N.ltb_lt in H
    | H : (_ <? _) = false |- _ => apply N.ltb_ge in H
    | H : (_ <=? _) = true |- _ => apply N.leb_le in H
    | H : (_ <=? _) = false |- _ => apply N.leb_gt in H
    | H : negb _ = false |- _ => apply negb_false_iff in H
    | H : (_ && _)%bool = true |- _ => apply andb_true_iff in H; destruct H
    | H : (_ || _)%bool = false |- _ => apply orb_false_iff in H; destruct H
    | H : (_ && _)%bool = false |- _ => apply andb_false_iff in H; destruct H
    end.

(** The strict decoder gives scalar values only. *)
Lemma utf8_decode_scalar b s :
  utf8_decode b = Ok s -> forallb scalar_value s = true.
Proof.
  remember (List.length b) as n eqn:Hn. revert b s Hn.
  induction n as [n IH] using lt_wf_ind. intros b s Hn H.
  assert (IH' : forall r s', (List.length r < n)%nat ->
                             utf8_decode r = Ok s' ->
                             forallb scalar_value s' = true).
  { intros r s' Hlt Hr. exact (IH _ Hlt r s' eq_refl Hr). }
  clear IH.
  destruct b as [|b0 r0]; cbn [utf8_decode] in H.
  { apply Ok_inj in H. subst s. reflexivity. }
  cbv zeta in H. unfold continuation in H.
  repeat match type of H with
    | (if ?c then _ else _) = Ok _ => destruct c eqn:?; try discriminate H
    | match ?l with [] => _ | _ :: _ => _ end = Ok _ =>
        destruct l; try discriminate H
    end;
    apply bind_cons_inv in H as (s' & Hs' & ->);
    (apply IH' in Hs'; [|subst n; cbn [List.length]; lia]);
    cbn [forallb]; rewrite Hs';
    unfold scalar_value; tests_to_props; decide_tests; reflexivity.
Qed.

Lemma ascii_decode_scalar b s :
  ascii_decode b = Ok s -> forallb scalar_value s = true.
Proof.
  revert s. induction b as [|x b IH]; intros s; cbn [ascii_decode].
  - intros H. apply Ok_inj in H. subst s. reflexivity.
  - destruct (N.ltb_spec (Byte.to_N x) 0x80) as [Hx|Hx]; [|discriminate].
    intros H. apply bind_cons_inv in H as (s' & Hs' & ->).
    cbn [forallb]. rewrite (IH s' Hs'). unfold scalar_value.
    decide_tests; reflexivity.
Qed.

Close Scope N_scope.

(** What [fromisoformat] gives is a timestamp that the constructor has
    accepted. *)
Lemma fromisoformat_valid s t : fromisoformat s = Ok t -> valid_datetime t = true.
Proof.
  unfold fromisoformat. intros H.
  repeat (apply bind_inv in H; destruct H as (? & _ & H);
          repeat match type of H with
            | (let (_, _) := ?p in _) = _ => destruct p
            end).
  unfold datetime_new in H.
  match type of H with
  | (if ?c then _ else _) = _ => destruct c eqn:Hvalid; [|discriminate H]
  end.
  apply Ok_inj in H. subst t. exact Hvalid.
Qed.

Section ExtraReencode.

Context {builtins : Builtins}.

(** What a decoder of the default table gives for raw bytes is a value
    that goes through: an integer, a float, a string of scalar values or
    a valid timestamp. *)
Lemma default_decoder_value a raw decode v :
  lookup (VStr a) DECODERS = Some decode ->
  decode (VBytes raw) = Ok v ->
  (forall x, v = VFloat x -> float_text_round_trip x) ->
  round_trip_value v.
Proof.
  unfold DECODERS. cbn [lookup].
  repeat match goal with
    | |- context [member (VStr a) ?set] => destruct (member (VStr a) set)
    end;
    intros Hdecode; try discriminate Hdecode;
    apply Some_inj in Hdecode; subst decode; cbv beta;
    intros H Hfloat; apply bind_inv in H as (y & Hy & Hv).
  - apply Ok_inj in Hv. subst v. exact I.
  - apply Ok_inj in Hv. subst v. cbn [round_trip_value]. now apply Hfloat.
  - apply Ok_inj in Hv. subst v. cbn [round_trip_value].
    cbn [py_decode] in Hy. exact (utf8_decode_scalar raw y Hy).
  - apply Ok_inj in Hv. subst v. cbn [round_trip_value].
    cbn [py_decode] in Hy. exact (ascii_decode_scalar raw y Hy).
  - apply bind_inv in Hv as (t & Ht & Hv). apply Ok_inj in Hv. subst v.
    cbn [round_trip_value]. exact (fromisoformat_valid y t Ht).
Qed.

(** X21: a record that [decode_line] has read from a line of the
    transport with the default table and the raising fallback can be
    written again and read back the same. The line that [encode_line]
    writes for it with the default tables decodes to that very record,
    even when it differs from the line first read (a long annotation
    comes back as the short code, an integer without its leading zeros).
    For a float value this rests on the library reading back the text it
    writes for it. *)
Theorem decoded_record_is_stable key raw k v :
  decode_line [KeyValue key (VBytes raw)] (Some DECODERS)
    (Some raise_decoding_error)
  = yield_return (KeyValue k v) [] ->
  (forall x, v = VFloat x -> float_text_round_trip x) ->
  exists l,
    encode_line (KeyValue k v) (Some ENCODERS) ensure_encoded (Some TYPES) = Ok l
    /\ decode_line [l] (Some DECODERS) (Some raise_decoding_error)
       = yield_return (KeyValue k v) [].
Proof.
  intros Hdec Hfloat.
  destruct (contains bang key) eqn:Hkey.
  - destruct (annotated_key key Hkey) as (k0 & a & -> & Hk0).
    rewrite (decode_line_annotated k0 a (VBytes raw) [] _ _ Hk0) in Hdec.
    unfold converted in Hdec.
    destruct (lookup (VStr a) DECODERS) as [decode|] eqn:Hlookup;
      [|discriminate Hdec].
    destruct (decode (VBytes raw)) as [v0|e] eqn:Hv0; [|discriminate Hdec].
    injection Hdec as <- <-.
    apply record_round_trip; [exact Hk0|].
    exact (default_decoder_value a raw decode v0 Hlookup Hv0 Hfloat).
  - rewrite (decode_line_plain key (VBytes raw) [] _ _ Hkey) in Hdec.
    injection Hdec as <- <-.
    exists (KeyValue key (VBytes raw)). split.
    + unfold encode_line.
      cbn [bind is_none TYPES infer isinstance type_of pytype_eqb].
      reflexivity.
    + apply decode_line_plain. exact Hkey.
Qed.

End ExtraReencode.

(** ** Forward reading and sentinels *)

(** [decode_line] takes a prefix off the stream and yields no more items
    than it has taken lines. *)
Lemma decode_line_prefix stream decoders default :
  exists taken,
    stream = taken ++ remaining (decode_line stream decoders default)
    /\ (List.length (yielded (decode_line stream decoders default))
        <= List.length taken)%nat.
Proof.
  induction stream as [|l stream (taken & Htaken & Hlen)].
  - exists []. split; [reflexivity | cbn; lia].
  - destruct l as [| |key raw].
    + exists (Pending :: taken). cbn [decode_line emit remaining yielded app].
      split; [now rewrite <- Htaken | cbn [List.length]; lia].
    + exists [Blank]. split; [reflexivity | cbn; lia].
    + exists [KeyValue key raw].
      rewrite (decode_line_head (KeyValue key raw) stream decoders default)
        by discriminate.
      cbn [remaining yielded app]. split; [reflexivity|].
      destruct (decode_line_single (KeyValue key raw) decoders default)
        as [(x & _ & ->)|(e & ->)]; [discriminate | |]; cbn; lia.
Qed.

(** X22: [decode_block] comes to an end on every finite stream, reads it
    forward only and yields at most one item for each line it takes:
    what it leaves in the stream is a suffix of what it was given, and
    the number of items yielded is at most the number of lines taken
    before that suffix. *)
Theorem decode_block_reads_forward stream decoders default :
  exists r taken,
    decode_block stream decoders default = Some r
    /\ stream = taken ++ remaining r
    /\ (List.length (yielded r) <= List.length taken)%nat.
Proof.
  remember (List.length stream) as n eqn:Hn. revert stream Hn.
  induction n as [n IH] using lt_wf_ind. intros stream Hn.
  rewrite decode_block_unfold. cbv zeta.
  destruct (decode_line_prefix stream decoders (Some raise_decoding_error))
    as (taken & Htaken & Hlen).
  destruct (ended (decode_line stream decoders (Some raise_decoding_error)))
    as [|e] eqn:E.
  - pose proof (decode_line_returned stream decoders _ E) as Hlt.
    destruct (IH _ ltac:(subst n; exact Hlt) _ eq_refl)
      as (r' & taken' & -> & Htaken' & Hlen').
    exists (emits (yielded (decode_line stream decoders
                              (Some raise_decoding_error))) r'),
           (taken ++ taken').
    split; [reflexivity|]. cbn [emits remaining yielded]. split.
    + rewrite <- app_assoc, <- Htaken'. exact Htaken.
    + rewrite !length_app. lia.
  - destruct e;
      (eexists; exists taken; split; [reflexivity|];
       split; [exact Htaken | exact Hlen]).
Qed.

Section ExtraSentinels.

Context {builtins : Builtins}.

(** X23: [encode_line] neither makes nor loses a marker or a terminator.
    Its result is the marker exactly when it is given the marker, and
    the terminator exactly when it is given the terminator; a record
    never encodes to either, whatever the tables and the handler. *)
Theorem encode_line_keeps_sentinels l encoders handler types :
  (encode_line l encoders handler types = Ok Pending <-> l = Pending)
  /\ (encode_line l encoders handler types = Ok Blank <-> l = Blank).
Proof.
  destruct l as [| |k value].
  - split; split; try reflexivity; discriminate.
  - split; split; try reflexivity; discriminate.
  - rewrite encode_line_steps.
    assert (H : forall x,
      match x with KeyValue _ _ => False | _ => True end ->
      ('(annotation, value) <- table_conversion value encoders types ;;
       value <- handler annotation value ;;
       if is_bytes value
       then Ok (KeyValue (annotated_key_of k annotation) value)
       else Err (EncodingError value annotation)) <> Ok x).
    { intros x Hx.
      destruct (table_conversion value encoders types) as [[a v]|e];
        cbn [bind]; [|discriminate].
      destruct (handler a v) as [h|e]; cbn [bind]; [|discriminate].
      destruct (is_bytes h); [|discriminate].
      intros Heq. apply Ok_inj in Heq. subst x. exact Hx. }
    split; split; intros Heq; try discriminate Heq.
    + exact (False_ind _ (H Pending I Heq)).
    + exact (False_ind _ (H Blank I Heq)).
Qed.

End ExtraSentinels.

(** ** The further properties at sample inputs *)

Section ExtraSamples.

#[local] Existing Instance sample_builtins.

Lemma yielded_keys_are_plain_witness :
  plain_keys
    [Pending; KeyValue (str_of "a") (VTuple [VStr (str_of "b!c"); VBytes []]);
     Blank].
Proof.
  destruct (yielded_keys_are_plain
              [Pending; KeyValue (str_of "a!b!c") (VBytes []); Blank] None None)
    as (_ & H).
  exact (H _ eq_refl).
Defined.

Lemma encode_first_match_wins_witness :
  encode_line sample_record
    (Some [([str_of "N"], fun v => Ok (VBytes (bytes_of "first")));
           ([str_of "N"], fun v => Ok (VBytes (bytes_of "second")))])
    ensure_encoded
    (Some [(TInt, VStr (str_of "N")); (TInt, VStr (str_of "M"))])
  = Ok (KeyValue (str_of "x!N") (VBytes (bytes_of "first"))).
Proof.
  assert (Ht : forall t (x : pyval), In (t, x) [] -> isinstance (VInt 1) t = false)
    by (intros ? ? []).
  assert (He : unknown (str_of "N") []) by (intros ? ? []).
  assert (Hin : In (str_of "N") [str_of "N"]) by (left; reflexivity).
  exact (encode_first_match_wins (str_of "x") (VInt 1) (str_of "N")
           [] TInt [(TInt, VStr (str_of "M"))]
           [] [str_of "N"] (fun v => Ok (VBytes (bytes_of "first")))
           [([str_of "N"], fun v => Ok (VBytes (bytes_of "second")))]
           ensure_encoded eq_refl Ht eq_refl He Hin).
Defined.

Lemma long_and_short_forms_decode_witness :
  decode_line [KeyValue (str_of "x!Int") (VBytes (bytes_of "1"))]
    (Some DECODERS) None
  = decode_line [sample_line] (Some DECODERS) None.
Proof.
  assert (Hin : In (str_of "Int", str_of "I") synonyms) by (left; reflexivity).
  exact (long_and_short_forms_decode (str_of "Int") (str_of "I") (str_of "x")
           (VBytes (bytes_of "1")) [] None Hin eq_refl).
Defined.

Lemma long_and_short_forms_encode_witness :
  exists converted_value : result bytes,
    encode_line (KeyValue (str_of "x") (VTuple [VStr (str_of "Time"); VInt 1]))
      (Some ENCODERS) ensure_encoded (Some TYPES)
    = (b <- converted_value ;; Ok (KeyValue (str_of "x!Time") (VBytes b)))
    /\ encode_line (KeyValue (str_of "x") (VTuple [VStr (str_of "T"); VInt 1]))
         (Some ENCODERS) ensure_encoded (Some TYPES)
       = (b <- converted_value ;; Ok (KeyValue (str_of "x!T") (VBytes b))).
Proof.
  assert (Hin : In (str_of "Time", str_of "T") synonyms)
    by (do 4 right; left; reflexivity).
  exact (long_and_short_forms_encode (str_of "Time") (str_of "T") (str_of "x")
           (VInt 1) (Some TYPES) Hin).
Defined.



Lemma bang_key_is_not_preserved_witness :
  ~ In (KeyValue (str_of "a!b") (VBytes (bytes_of "1")))
      (yielded (decode_line [KeyValue (str_of "a!b") (VBytes (bytes_of "1"))]
                  None None)).
Proof.
  exact (proj2 (bang_key_is_not_preserved (str_of "a!b") (VBytes (bytes_of "1"))
                  (Some ENCODERS) ensure_encoded (Some TYPES)
                  (KeyValue (str_of "a!b") (VBytes (bytes_of "1")))
                  None None eq_refl eq_refl)
               (VBytes (bytes_of "1"))).
Defined.

Lemma disabled_tables_round_trip_witness :
  decode_line [KeyValue (str_of "x!F") (VBytes (bytes_of "1e0"))] None None
  = yield_return
      (KeyValue (str_of "x") (VTuple [VStr (str_of "F"); VBytes (bytes_of "1e0")]))
      [].
Proof.
  exact (proj2 (disabled_tables_round_trip (str_of "x") (str_of "F")
                  (bytes_of "1e0") (Some TYPES) None eq_refl)).
Defined.

Lemma decodes_to_marker decoders : decodes_to decoders Pending Pending.
Proof. left. split; reflexivity. Qed.

Lemma decodes_to_sample : decodes_to (Some DECODERS) sample_line sample_record.
Proof. right. split; [discriminate | reflexivity]. Qed.

Lemma decode_block_line_by_line_witness :
  decode_block [Pending; sample_line] (Some DECODERS) None
  = Some (mkRun [Pending; sample_record] Returned []).
Proof.
  assert (H : Forall2 (decodes_to (Some DECODERS)) [Pending; sample_line] [Pending; sample_record]).
  { constructor; [apply decodes_to_marker|].
    constructor; [apply decodes_to_sample | constructor]. }
  exact (proj1 (decode_block_line_by_line [Pending; sample_line] [Pending; sample_record]
                  (Some DECODERS) None H)).
Defined.

Lemma decode_block_first_error_witness :
  decode_block ([sample_line] ++ unknown_line :: [sample_line]) (Some DECODERS) None
  = Some (mkRun [sample_record]
            (Raised (DecodingError (str_of "unrecognized annotation: Q")))
            [sample_line]).
Proof.
  assert (H : Forall2 (decodes_to (Some DECODERS)) [sample_line] [sample_record]).
  { constructor; [apply decodes_to_sample | constructor]. }
  assert (Hbad : decoding_raises (Some DECODERS) unknown_line
                   (DecodingError (str_of "unrecognized annotation: Q"))).
  { split; [discriminate | reflexivity]. }
  assert (He : DecodingError (str_of "unrecognized annotation: Q") <> EOFError)
    by discriminate.
  exact (decode_block_first_error [sample_line] [sample_record] unknown_line _ [sample_line]
           (Some DECODERS) None H Hbad He).
Defined.

Lemma decode_block_swallows_decoder_eof_witness :
  decode_block
    ([KeyValue (str_of "x") (VBytes (bytes_of "1"))]
       ++ unknown_line :: [KeyValue (str_of "y") (VBytes (bytes_of "2"))])
    (Some [([str_of "Q"], fun _ => Err EOFError)]) None
  = Some (mkRun [KeyValue (str_of "x") (VBytes (bytes_of "1"))] Returned
            [KeyValue (str_of "y") (VBytes (bytes_of "2"))]).
Proof.
  assert (H : Forall2 (decodes_to (Some [([str_of "Q"], fun _ => Err EOFError)]))
                [KeyValue (str_of "x") (VBytes (bytes_of "1"))]
                [KeyValue (str_of "x") (VBytes (bytes_of "1"))]).
  { constructor; [|constructor]. right. split; [discriminate | reflexivity]. }
  assert (Hbad : decoding_raises (Some [([str_of "Q"], fun _ => Err EOFError)])
                   unknown_line EOFError).
  { split; [discriminate | reflexivity]. }
  exact (decode_block_swallows_decoder_eof _ _ unknown_line
           [KeyValue (str_of "y") (VBytes (bytes_of "2"))] _ None H Hbad).
Defined.

Lemma encode_block_line_by_line_witness :
  encode_block [sample_record; Blank] (Some ENCODERS) ensure_encoded (Some TYPES)
  = mkRun [sample_line; Blank] Returned []
  /\ encode_block ([sample_record; Blank] ++ KeyValue (str_of "y") VNone :: [sample_record])
       (Some ENCODERS) ensure_encoded (Some TYPES)
     = mkRun [sample_line; Blank] (Raised (EncodingError VNone VNone)) [sample_record].
Proof.
  assert (H : Forall2 (fun l x => encode_line l (Some ENCODERS) ensure_encoded
                                    (Some TYPES) = Ok x)
                [sample_record; Blank] [sample_line; Blank]).
  { repeat constructor. }
  destruct (encode_block_line_by_line [sample_record; Blank] [sample_line; Blank]
              (Some ENCODERS) ensure_encoded (Some TYPES) H) as (H1 & H2).
  split; [exact H1|].
  exact (H2 (KeyValue (str_of "y") VNone) (EncodingError VNone VNone) [sample_record] eq_refl).
Defined.


Lemma ascii_is_strict_witness :
  encode_line
    (KeyValue (str_of "x") (VTuple [VStr (str_of "A"); VStr [960%N]]))
    (Some ENCODERS) ensure_encoded (Some TYPES)
  = Err UnicodeEncodeError
  /\ decode_line [KeyValue (str_of "x!A") (VBytes [xcf; x80])]
       (Some DECODERS) None
     = raise UnicodeDecodeError [].
Proof.
  assert (Ha : In (str_of "A") [str_of "ASCII"; str_of "A"])
    by (right; left; reflexivity).
  destruct (ascii_is_strict (str_of "A") (str_of "x") Ha) as (H1 & H2).
  split.
  - apply H1. left. cbn. lia.
  - apply (H2 [xcf; x80] [] None eq_refl). left. cbn. lia.
Defined.

Lemma inferred_annotation_is_known_witness :
  decode_line [sample_line] (Some DECODERS) None
  = decode_line [sample_line] (Some DECODERS) (Some raise_decoding_error).
Proof.
  exact (inferred_annotation_is_known (str_of "x") (VInt 1) ensure_encoded
           sample_line [] None (Some raise_decoding_error) eq_refl eq_refl eq_refl).
Defined.

Lemma tuple_value_must_be_a_pair_witness :
  encode_line (KeyValue (str_of "x") (VTuple [])) (Some ENCODERS)
    ensure_encoded (Some TYPES)
  = Err ValueError.
Proof.
  assert (H : List.length (@nil pyval) <> 2%nat) by discriminate.
  exact (tuple_value_must_be_a_pair (str_of "x") [] (Some ENCODERS)
           ensure_encoded (Some TYPES) H).
Defined.


Lemma default_table_order_is_immaterial_witness :
  decode_line [sample_line] (Some (List.rev DECODERS)) None
  = decode_line [sample_line] (Some DECODERS) None.
Proof.
  destruct default_table_order_is_immaterial as (_ & _ & H & _).
  exact (H (List.rev DECODERS) [sample_line] None (Permutation_rev DECODERS)).
Defined.

Lemma decoded_record_is_stable_witness :
  exists l,
    encode_line sample_record (Some ENCODERS) ensure_encoded (Some TYPES) = Ok l
    /\ decode_line [l] (Some DECODERS) (Some raise_decoding_error)
       = yield_return sample_record [].
Proof.
  assert (Hfloat : forall x, VInt 1 = VFloat x -> float_text_round_trip x)
    by (intros x Hx; discriminate Hx).
  exact (decoded_record_is_stable (str_of "x!Int") (bytes_of "01") (str_of "x")
           (VInt 1) eq_refl Hfloat).
Defined.

End ExtraSamples.

